(** * A parts inventory service: its handlers over a key-value table

    The service of [app.py] keeps one table of hardware parts and answers
    six kinds of request over it.  Every handler is a function from the
    table (and the request data) to a reply and, for the writing handlers,
    the table after the request.

    - A value is a decoded JSON value; a column of a row holds the value
      that was assigned to it, of whatever kind.
    - The table is a finite map from integer keys to rows.  A handler that
      commits returns the new table; one that returns early or raises
      returns the table it was given, as nothing was committed.
    - The key of a new row is chosen by the storage engine, a parameter
      [new_id] of the handlers; [sqlite_rowid] is the rule of the engine the
      service is configured with.
    - The additions, the division and the rounding behind the average price
      are Python's, on floating-point numbers; they are parameters of the
      listing, and [exact_add], [exact_truediv] and [exact_round] run it
      with rationals.
    - An exception that leaves a view function is the outcome [Raised]; the
      framework turns it into a reply with status 500. *)

From Stdlib Require Import QArith Qround Ascii String.
From stdpp Require Import gmap strings list fin_maps sorting.

Local Open Scope string_scope.
Local Open Scope Z_scope.

(** ** Python values *)

(** What a JSON body decodes to, and what a column of a row holds.  A number
    is kept as the rational it denotes. *)
#[warnings="-register-all"]
Inductive json : Type :=
  | JNull
  | JBool (b : bool)
  | JNum (n : Q)
  | JStr (s : string)
  | JArr (l : list json)
  | JObj (l : list (string * json)).

(** A decoded JSON object, used as a Python [dict] keyed by strings. *)
Abbreviation payload := (gmap string json).

Definition JInt (z : Z) : json := JNum (inject_Z z).

(** [bool(v)]: the values Python treats as false are [None], [False], zero,
    and the empty string, list and dict. *)
Definition truthy (v : json) : bool :=
  match v with
  | JNull => false
  | JBool b => b
  | JNum n => negb (Qnum n =? 0)%Z
  | JStr s => negb (String.eqb s "")
  | JArr l => match l with [] => false | _ => true end
  | JObj l => match l with [] => false | _ => true end
  end.

(** ** Strings *)

Definition is_lower_letter (c : ascii) : bool :=
  let n := nat_of_ascii c in ((97 <=? n) && (n <=? 122))%nat.

Definition is_upper_letter (c : ascii) : bool :=
  let n := nat_of_ascii c in ((65 <=? n) && (n <=? 90))%nat.

Definition upper_ascii (c : ascii) : ascii :=
  if is_lower_letter c then ascii_of_nat (nat_of_ascii c - 32) else c.

Definition lower_ascii (c : ascii) : ascii :=
  if is_upper_letter c then ascii_of_nat (nat_of_ascii c + 32) else c.

Fixpoint string_map (f : ascii → ascii) (s : string) : string :=
  match s with
  | EmptyString => EmptyString
  | String c s' => String (f c) (string_map f s')
  end.

(** [s.upper()] and [s.lower()] on the letters a-z and A-Z; every other
    character is left as it is.  No character outside these letters
    changes into one of C, P, U, G or c, p, u, g under Python's case
    mappings, so the membership tests below see what Python sees. *)
Definition upper (s : string) : string := string_map upper_ascii s.
Definition lower (s : string) : string := string_map lower_ascii s.

(** [x in l] for a list [l] of string literals. *)
Definition in_strs (x : string) (l : list string) : bool :=
  existsb (String.eqb x) l.

(** [v in l] for an arbitrary value [v]: only a string can equal a string. *)
Definition value_in_strs (v : json) (l : list string) : bool :=
  match v with
  | JStr s => in_strs s l
  | _ => false
  end.

(** [needle in hay], on strings. *)
Fixpoint is_prefix (p s : string) : bool :=
  match p, s with
  | EmptyString, _ => true
  | String a p', String b s' => Ascii.eqb a b && is_prefix p' s'
  | String _ _, EmptyString => false
  end.

Fixpoint contains (needle hay : string) : bool :=
  is_prefix needle hay ||
  match hay with
  | EmptyString => false
  | String _ hay' => contains needle hay'
  end.

(** ** Replies *)

(** A view function returns a body with a status code, or raises. *)
Inductive outcome : Type :=
  | Response (body : json) (code : Z)
  | Raised (exn : string).

Definition status_code (o : outcome) : Z :=
  match o with
  | Response _ c => c
  | Raised _ => 500
  end.

Definition part_not_found : outcome :=
  Response (JObj [("status", JInt 1); ("message", JStr "Part not found.")]) 404.

Definition part_type_invalid : outcome :=
  Response (JObj [("status", JInt 1);
                  ("message", JStr "Invalid type. Valid choices are ‘CPU’ and ‘GPU’.")]) 400.

Definition id_supplied_error : outcome :=
  Response (JObj [("status", JInt 1); ("message", JStr "Client cannot supply id.")]) 400.

(** ** The table *)

(** A row of the [Part] model without its primary key; the key is the key
    of the table.  A column holds whatever value was assigned to it. *)
Record Part : Type := {
  name : json;
  type : json;
  release_date : json;
  core_clock : json;
  boost_clock : json;
  clock_unit : json;
  price : json;
  TDP : json;
  part_no : json
}.

Abbreviation table := (gmap Z Part).

(** [k in d] and [d.get(k)] on a dict. *)
Definition has_key (k : string) (d : payload) : bool :=
  bool_decide (is_Some (d !! k)).

Definition dict_get (d : payload) (k : string) : json :=
  default JNull (d !! k).

(** [x = d[k]], written with the lookup [d !! k]; a missing key raises
    [KeyError] and the table [db] stays. *)
Notation "'let!' x ':=' o 'else' db 'in' e" :=
  (match o with
   | Some x => e
   | None => (db, Raised "KeyError")
   end)
  (at level 10, x name, o at level 99, db at level 9, e at level 200,
   only parsing).

(** [v[k]] on a dict literal built by a handler. *)
Fixpoint getitem (l : list (string * json)) (k : string) : option json :=
  match l with
  | [] => None
  | (k', v) :: l' => if String.eqb k k' then Some v else getitem l' k
  end.

(** [v.upper()] and [v.lower()]: only a string has these methods, on any
    other value the call raises [AttributeError]. *)
Definition str_upper (v : json) : option string :=
  match v with JStr s => Some (upper s) | _ => None end.

Definition str_lower (v : json) : option string :=
  match v with JStr s => Some (lower s) | _ => None end.

Definition required_fields : list string :=
  ["name"; "type"; "release_date"; "core_clock"; "clock_unit"; "price";
   "TDP"; "part_no"].

(** [[field for field in required_fields if field not in d]] *)
Definition missing_from (d : payload) : list string :=
  List.filter (λ field, negb (has_key field d)) required_fields.

Definition nonempty {A} (l : list A) : bool :=
  match l with [] => false | _ => true end.

(** [Part.query.get(id)] is the lookup [db !! id]; [Part.query.all()] reads
    the rows in the order of their keys. *)
Definition key_le (a b : Z * Part) : Prop := a.1 ≤ b.1.

#[global] Instance key_le_dec a b : Decision (key_le a b) := Z_le_dec a.1 b.1.

Definition query_all (db : table) : list (Z * Part) :=
  merge_sort key_le (map_to_list db).

(** [Part.type.ilike("%" + t + "%")] for a [t] without the wildcards [%] and
    [_]: the column contains [t], letter case apart.  A column that holds
    no string does not match. *)
Definition ilike_contains (t : string) (column : json) : bool :=
  match column with
  | JStr s => contains (lower t) (lower s)
  | _ => false
  end.

(** ** The handlers *)

(** Assignments [part.name = value] and so on. *)
Definition set_name (v : json) (p : Part) : Part :=
  {| name := v; type := type p; release_date := release_date p;
     core_clock := core_clock p; boost_clock := boost_clock p;
     clock_unit := clock_unit p; price := price p; TDP := TDP p;
     part_no := part_no p |}.

Definition set_type (v : json) (p : Part) : Part :=
  {| name := name p; type := v; release_date := release_date p;
     core_clock := core_clock p; boost_clock := boost_clock p;
     clock_unit := clock_unit p; price := price p; TDP := TDP p;
     part_no := part_no p |}.

Definition set_release_date (v : json) (p : Part) : Part :=
  {| name := name p; type := type p; release_date := v;
     core_clock := core_clock p; boost_clock := boost_clock p;
     clock_unit := clock_unit p; price := price p; TDP := TDP p;
     part_no := part_no p |}.

Definition set_core_clock (v : json) (p : Part) : Part :=
  {| name := name p; type := type p; release_date := release_date p;
     core_clock := v; boost_clock := boost_clock p;
     clock_unit := clock_unit p; price := price p; TDP := TDP p;
     part_no := part_no p |}.

Definition set_boost_clock (v : json) (p : Part) : Part :=
  {| name := name p; type := type p; release_date := release_date p;
     core_clock := core_clock p; boost_clock := v;
     clock_unit := clock_unit p; price := price p; TDP := TDP p;
     part_no := part_no p |}.

Definition set_clock_unit (v : json) (p : Part) : Part :=
  {| name := name p; type := type p; release_date := release_date p;
     core_clock := core_clock p; boost_clock := boost_clock p;
     clock_unit := v; price := price p; TDP := TDP p;
     part_no := part_no p |}.

Definition set_price (v : json) (p : Part) : Part :=
  {| name := name p; type := type p; release_date := release_date p;
     core_clock := core_clock p; boost_clock := boost_clock p;
     clock_unit := clock_unit p; price := v; TDP := TDP p;
     part_no := part_no p |}.

Definition set_TDP (v : json) (p : Part) : Part :=
  {| name := name p; type := type p; release_date := release_date p;
     core_clock := core_clock p; boost_clock := boost_clock p;
     clock_unit := clock_unit p; price := price p; TDP := v;
     part_no := part_no p |}.

Definition set_part_no (v : json) (p : Part) : Part :=
  {| name := name p; type := type p; release_date := release_date p;
     core_clock := core_clock p; boost_clock := boost_clock p;
     clock_unit := clock_unit p; price := price p; TDP := TDP p;
     part_no := v |}.

(** The body of the loop of [modify_part]: the chain of [if]/[elif] on the
    key; a key that none of the branches names changes nothing. *)
Definition modify_field (key : string) (value : json) (part : Part) : Part :=
  if String.eqb key "name" then set_name value part
  else if String.eqb key "type" then set_type value part
  else if String.eqb key "release_date" then set_release_date value part
  else if String.eqb key "core_clock" then set_core_clock value part
  else if String.eqb key "boost_clock" then set_boost_clock value part
  else if String.eqb key "clock_unit" then set_clock_unit value part
  else if String.eqb key "price" then set_price value part
  else if String.eqb key "TDP" then set_TDP value part
  else if String.eqb key "part_no" then set_part_no value part
  else part.

(** [part_schema.dump(part)]: the ten fields of the schema. *)
Definition dump (id : Z) (p : Part) : list (string * json) :=
  [("id", JInt id); ("name", name p); ("type", type p);
   ("release_date", release_date p); ("core_clock", core_clock p);
   ("boost_clock", boost_clock p); ("clock_unit", clock_unit p);
   ("price", price p); ("TDP", TDP p); ("part_no", part_no p)].

Definition allowed_methods : list string :=
  ["PUT"; "POST"; "GET"; "PATCH"; "DELETE"].

(** The [before_request] hook: [None] lets the request through. *)
Definition validate_request (method path : string) : option outcome :=
  if negb (in_strs method allowed_methods) && is_prefix "/parts" path then
    Some (Response
            (JObj [("status", JInt 1);
                   ("message",
                    JStr "405 Method Not Allowed Allow: GET, POST, PUT, PATCH, DELETE")])
            405)
  else None.

Section Handlers.

(** The key the storage engine gives a row inserted without one. *)
Variable new_id : table → Z.

(** Python's [a + b], [a / n] and [round(a, n)] on values; [None] when
    the operation raises. *)
Variable py_add : json → json → option json.
Variable py_truediv : json → Z → option json.
Variable py_round : json → Z → option json.

(** [sum(l)]: the additions start from the integer 0 and go left to
    right. *)
Definition py_sum (l : list json) : option json :=
  foldl (λ acc x, acc ≫= λ a, py_add a x) (Some (JInt 0)) l.

(** PUT /parts *)
Definition add_part (db : table) (json : payload) : table * outcome :=
  let missing_fields := missing_from json in
  if nonempty missing_fields then
    (db, Response
           (JObj [("status", JInt 1);
                  ("message",
                   JStr ("Missing required fields: "
                         +:+ String.concat ", " missing_fields))])
           400)
  else if has_key "id" json then (db, id_supplied_error)
  else
    let! name := json !! "name" else db in
    let! type := json !! "type" else db in
    let! release_date := json !! "release_date" else db in
    let! core_clock := json !! "core_clock" else db in
    let! clock_unit := json !! "clock_unit" else db in
    let! price := json !! "price" else db in
    let! TDP := json !! "TDP" else db in
    let! part_no := json !! "part_no" else db in
    let boost_clock :=
      match json !! "boost_clock" with
      | Some v => v
      | None => JNull
      end in
    if negb (value_in_strs type ["CPU"; "GPU"]) then (db, part_type_invalid)
    else
      let new_part :=
        Build_Part name type release_date core_clock boost_clock clock_unit
                   price TDP part_no in
      let id := new_id db in
      (<[id := new_part]> db,
       Response (JObj [("status", JInt 0); ("message", JStr "New part added");
                       ("id", JInt id)])
                200).

(** The rest of [get_part] once the rows are read: their projection, their
    number and their average price. *)
Definition get_part_reply (all_parts : list (Z * Part)) : outcome :=
  let result :=
    (λ part, [("id", JInt part.1); ("name", name part.2);
              ("type", type part.2); ("price", price part.2)])
      <$> all_parts in
  let number_of_parts := Z.of_nat (length result) in
  let average_price :=
    if negb (number_of_parts =? 0) then
      total_price ← py_sum (omap (λ part, getitem part "price") result);
      quotient ← py_truediv total_price number_of_parts;
      py_round quotient 2
    else Some (JInt 0) in
  match average_price with
  | Some average_price =>
      Response (JObj [("status", JInt 0);
                      ("total", JInt number_of_parts);
                      ("average_price", average_price);
                      ("parts", JArr (JObj <$> result))])
               200
  | None => Raised "TypeError"
  end.

(** GET /parts, with the value of the query parameter [type] if the
    request has one. *)
Definition get_part (db : table) (type_arg : option string) : outcome :=
  match type_arg with
  | Some t =>
      if negb (String.eqb t "") then
        if negb (in_strs (upper t) ["GPU"; "CPU"]) then part_type_invalid
        else get_part_reply
               (List.filter (λ row, ilike_contains t (type row.2))
                            (query_all db))
      else get_part_reply (query_all db)
  | None => get_part_reply (query_all db)
  end.

(** GET /parts/<id> *)
Definition get_part_by_id (db : table) (id : Z) : outcome :=
  match db !! id with
  | None => part_not_found
  | Some part =>
      let result := dump id part in
      Response (JObj (("status", JInt 0) :: result)) 200
  end.

(** POST /parts/<id> *)
Definition update_part (db : table) (id : Z) (data : payload)
  : table * outcome :=
  match db !! id with
  | None => (db, part_not_found)
  | Some part =>
      if has_key "id" data then (db, id_supplied_error)
      else
        let missing_fields := missing_from data in
        if nonempty missing_fields then
          (db, Response
                 (JObj [("status", JInt 1);
                        ("message",
                         JStr ("Missing fields: "
                               +:+ String.concat ", " missing_fields))])
                 400)
        else
          (* data.get("type") and data["type"].upper() not in ["CPU", "GPU"] *)
          let invalid : option bool :=
            if truthy (dict_get data "type") then
              t ← data !! "type";
              u ← str_upper t;
              Some (negb (in_strs u ["CPU"; "GPU"]))
            else Some false in
          match invalid with
          | None => (db, Raised "AttributeError")
          | Some true => (db, part_type_invalid)
          | Some false =>
              let! name := data !! "name" else db in
              let! type := data !! "type" else db in
              let! release_date := data !! "release_date" else db in
              let! core_clock := data !! "core_clock" else db in
              let boost_clock := dict_get data "boost_clock" in
              let! clock_unit := data !! "clock_unit" else db in
              let! price := data !! "price" else db in
              let! TDP := data !! "TDP" else db in
              let! part_no := data !! "part_no" else db in
              let part :=
                set_part_no part_no (set_TDP TDP (set_price price
                  (set_clock_unit clock_unit (set_boost_clock boost_clock
                    (set_core_clock core_clock
                      (set_release_date release_date
                        (set_type type (set_name name part)))))))) in
              (<[id := part]> db,
               Response (JObj [("status", JInt 0);
                               ("message", JStr "Part details updated")])
                        200)
          end
  end.

(** PATCH /parts/<id>.  The loop visits each key of the dict once and the
    branches for different keys assign different columns, so the order of
    the visit does not show in the result. *)
Definition modify_part (db : table) (id : Z) (data : payload)
  : table * outcome :=
  match db !! id with
  | None => (db, part_not_found)
  | Some part =>
      if has_key "id" data then (db, id_supplied_error)
      else
        (* "type" in data and data["type"].lower() not in ["cpu", "gpu"] *)
        let invalid : option bool :=
          if has_key "type" data then
            t ← data !! "type";
            l ← str_lower t;
            Some (negb (in_strs l ["cpu"; "gpu"]))
          else Some false in
        match invalid with
        | None => (db, Raised "AttributeError")
        | Some true => (db, part_type_invalid)
        | Some false =>
            let part := map_fold modify_field part data in
            (<[id := part]> db,
             Response (JObj [("status", JInt 0);
                             ("message", JStr "Part modified")])
                      200)
        end
  end.

(** DELETE /parts/<id> *)
Definition delete_part (db : table) (id : Z) : table * outcome :=
  match db !! id with
  | None => (db, part_not_found)
  | Some part =>
      (delete id db,
       Response (JObj [("status", JInt 0); ("message", JStr "Part deleted")])
                200)
  end.

End Handlers.

(** ** Requests and their dispatch *)

(** A request after URL matching: the view function the URL map found for
    its method and path (if any) with the [<id>] of the path, the [type]
    query parameter, and the decoded body. *)
Record request : Type := {
  method : string;
  path : string;
  endpoint : option string;
  view_id : Z;
  args_type : option string;
  get_json : payload
}.

Section Dispatch.

(** The call of the matched view function. *)
Variable dispatch_request : request → table → table * outcome.

(** A value returned by the [before_request] hook is the reply, and the
    view function is not called. *)
Definition full_dispatch_request (req : request) (db : table)
  : table * outcome :=
  match validate_request (method req) (path req) with
  | Some rv => (db, rv)
  | None => dispatch_request req db
  end.

End Dispatch.

Section Views.

Variable new_id : table → Z.
Variable py_add : json → json → option json.
Variable py_truediv : json → Z → option json.
Variable py_round : json → Z → option json.

(** The routes declared by the [@app.route] decorators. *)
Definition dispatch_request (req : request) (db : table) : table * outcome :=
  match endpoint req with
  | Some "add_part" => add_part new_id db (get_json req)
  | Some "get_part" =>
      (db, get_part py_add py_truediv py_round db (args_type req))
  | Some "get_part_by_id" => (db, get_part_by_id db (view_id req))
  | Some "update_part" => update_part db (view_id req) (get_json req)
  | Some "modify_part" => modify_part db (view_id req) (get_json req)
  | Some "delete_part" => delete_part db (view_id req)
  | _ => (db, Raised "NotFound")
  end.

(** ** Sequences of writes *)

Inductive operation : Type :=
  | Create (json : payload)
  | FullUpdate (id : Z) (data : payload)
  | PartialUpdate (id : Z) (data : payload)
  | Delete (id : Z).

Definition apply_operation (db : table) (o : operation) : table :=
  match o with
  | Create json => (add_part new_id db json).1
  | FullUpdate id data => (update_part db id data).1
  | PartialUpdate id data => (modify_part db id data).1
  | Delete id => (delete_part db id).1
  end.

Definition run (db : table) (ops : list operation) : table :=
  foldl apply_operation db ops.

End Views.

(** ** One storage engine and one arithmetic, to run the handlers *)

(** The largest key of a table. *)
Definition max_key (db : table) : option Z :=
  map_fold (λ k _ acc, Some (match acc with
                             | None => k
                             | Some a => Z.max k a
                             end)) None db.

(** SQLite's choice for an integer primary key left unset: one more than the
    largest key of the table, and 1 in an empty table. *)
Definition sqlite_rowid (db : table) : Z :=
  match max_key db with
  | None => 1
  | Some k => k + 1
  end.

(** Arithmetic on numbers without rounding error.  Python computes with
    binary floating point and agrees with it wherever its operations are
    exact.  A Boolean counts as 0 or 1. *)
Definition number_of (v : json) : option Q :=
  match v with
  | JNum n => Some n
  | JBool b => Some (if b then 1%Q else 0%Q)
  | _ => None
  end.

Definition exact_add (a b : json) : option json :=
  x ← number_of a; y ← number_of b; Some (JNum (Qred (x + y))).

Definition exact_truediv (a : json) (n : Z) : option json :=
  x ← number_of a;
  if n =? 0 then None else Some (JNum (Qred (x / inject_Z n))).

(** Rounding to [n] decimals, a tie going to the even neighbour. *)
Definition round_half_even (x : Q) (n : Z) : Q :=
  let scale := inject_Z (10 ^ n) in
  let scaled := (x * scale)%Q in
  let below := Qfloor scaled in
  let rest := (scaled - inject_Z below)%Q in
  let chosen :=
    match (rest ?= 1 # 2)%Q with
    | Lt => below
    | Gt => below + 1
    | Eq => if Z.even below then below else below + 1
    end in
  Qred (inject_Z chosen / scale).

Definition exact_round (a : json) (n : Z) : option json :=
  x ← number_of a; Some (JNum (round_half_even x n)).

Abbreviation exact_get_part := (get_part exact_add exact_truediv exact_round).

(** ** The vocabulary of the properties *)

(** The row a payload is merged into: each of the nine columns takes the
    value of its key when the payload has the key, and keeps its value
    otherwise. *)
Definition merged (part : Part) (data : payload) : Part :=
  {| name := default (name part) (data !! "name");
     type := default (type part) (data !! "type");
     release_date := default (release_date part) (data !! "release_date");
     core_clock := default (core_clock part) (data !! "core_clock");
     boost_clock := default (boost_clock part) (data !! "boost_clock");
     clock_unit := default (clock_unit part) (data !! "clock_unit");
     price := default (price part) (data !! "price");
     TDP := default (TDP part) (data !! "TDP");
     part_no := default (part_no part) (data !! "part_no") |}.


(** The projection of a row in the listing. *)
Definition thin (row : Z * Part) : list (string * json) :=
  [("id", JInt row.1); ("name", name row.2); ("type", type row.2);
   ("price", price row.2)].

(** The filter of the listing as a test on a row: with no filter value, or
    an empty one, every row passes; otherwise the rows whose type contains
    the value, letter case apart. *)
Definition passes (type_arg : option string) (p : Part) : bool :=
  match type_arg with
  | Some t => if String.eqb t "" then true else ilike_contains t (type p)
  | None => true
  end.

(** The keys the partial update knows. *)
Definition recognized_keys : list string :=
  ["name"; "type"; "release_date"; "core_clock"; "boost_clock"; "clock_unit";
   "price"; "TDP"; "part_no"].

(** The type column holds the literal "CPU" or "GPU". *)
Definition type_is_cpu_or_gpu (p : Part) : Prop :=
  type p = JStr "CPU" ∨ type p = JStr "GPU".

(** The type column holds a string that reads "CPU" or "GPU" once put in
    upper case. *)
Definition type_reads_cpu_or_gpu (p : Part) : Prop :=
  ∃ s, type p = JStr s ∧ in_strs (upper s) ["CPU"; "GPU"] = true.

Definition types_read_cpu_or_gpu (db : table) : Prop :=
  ∀ id p, db !! id = Some p → type_reads_cpu_or_gpu p.

(** A full update whose "type" is a true value; any other operation. *)
Definition type_given (o : operation) : Prop :=
  match o with
  | FullUpdate _ data => truthy (dict_get data "type") = true
  | _ => True
  end.

(** ** Sample data *)

Definition ryzen : payload :=
  list_to_map
    [("name", JStr "Ryzen 5 3600"); ("type", JStr "CPU");
     ("release_date", JInt 2019); ("core_clock", JInt 3600);
     ("boost_clock", JInt 4200); ("clock_unit", JStr "MHz");
     ("price", JNum (401 # 2)); ("TDP", JInt 65);
     ("part_no", JStr "100-000000031")].

Definition radeon : payload :=
  list_to_map
    [("name", JStr "Radeon RX 580"); ("type", JStr "GPU");
     ("release_date", JInt 2017); ("core_clock", JInt 1257);
     ("clock_unit", JStr "MHz"); ("price", JInt 100); ("TDP", JInt 185);
     ("part_no", JStr "RX580-8G")].

(** The table after creating the two parts, with keys 1 and 2. *)
Definition two_parts : table :=
  run sqlite_rowid ∅ [Create ryzen; Create radeon].

(** A request the hook lets through to the partial update of row 2. *)
Definition patch_request : request :=
  {| method := "PATCH"; path := "/parts/2"; endpoint := Some "modify_part";
     view_id := 2; args_type := None;
     get_json := {[ "price" := JInt 90 ]} |}.

(** The same request sent with the method HEAD. *)
Definition head_request : request :=
  {| method := "HEAD"; path := "/parts/2"; endpoint := Some "modify_part";
     view_id := 2; args_type := None;
     get_json := {[ "price" := JInt 90 ]} |}.

(** ** Further vocabulary *)

(** The row the nine keys of a payload describe; a key the payload lacks
    gives a null column. *)
Definition part_of_payload (d : payload) : Part :=
  {| name := dict_get d "name";
     type := dict_get d "type";
     release_date := dict_get d "release_date";
     core_clock := dict_get d "core_clock";
     boost_clock := dict_get d "boost_clock";
     clock_unit := dict_get d "clock_unit";
     price := dict_get d "price";
     TDP := dict_get d "TDP";
     part_no := dict_get d "part_no" |}.

(** A value is a string. *)
Definition is_str (v : json) : bool :=
  match v with JStr _ => true | _ => false end.

(** The replies of the writing handlers that succeed. *)
Definition created (id : Z) : outcome :=
  Response (JObj [("status", JInt 0); ("message", JStr "New part added");
                  ("id", JInt id)]) 200.

Definition updated : outcome :=
  Response (JObj [("status", JInt 0); ("message", JStr "Part details updated")])
           200.

Definition modified : outcome :=
  Response (JObj [("status", JInt 0); ("message", JStr "Part modified")]) 200.

Definition deleted : outcome :=
  Response (JObj [("status", JInt 0); ("message", JStr "Part deleted")]) 200.

(** The body of a listing with no part in it. *)
Definition empty_listing : outcome :=
  Response (JObj [("status", JInt 0); ("total", JInt 0);
                  ("average_price", JInt 0); ("parts", JArr [])]) 200.

(** The payload of a create that is accepted. *)
Definition valid_create (d : payload) : Prop :=
  missing_from d = [] ∧ d !! "id" = None ∧
  (d !! "type" = Some (JStr "CPU") ∨ d !! "type" = Some (JStr "GPU")).

(** The payload of a full update that is accepted: every required field, no
    "id", and a type that is a false value or a string reading CPU or GPU
    in upper case. *)
Definition valid_update (d : payload) : Prop :=
  missing_from d = [] ∧ d !! "id" = None ∧
  (truthy (dict_get d "type") = false ∨
   ∃ s, d !! "type" = Some (JStr s) ∧ in_strs (upper s) ["CPU"; "GPU"] = true).

(** The payload of a partial update that is accepted: no "id", and no type
    or one that is a string reading cpu or gpu in lower case. *)
Definition valid_patch (d : payload) : Prop :=
  d !! "id" = None ∧
  (d !! "type" = None ∨
   ∃ s, d !! "type" = Some (JStr s) ∧ in_strs (lower s) ["cpu"; "gpu"] = true).

(** A field of the body of a reply. *)
Definition field (k : string) (o : outcome) : option json :=
  match o with
  | Response (JObj l) _ => getitem l k
  | _ => None
  end.

(** Two payloads agree on the ten keys the handlers look at. *)
Definition same_known_keys (d d' : payload) : Prop :=
  ∀ k, In k ("id" :: recognized_keys) → d' !! k = d !! k.
(** * Properties *)

(** ** Dicts and required fields *)

Lemma has_key_true (k : string) (d : payload) :
  has_key k d = true ↔ is_Some (d !! k).
Proof. unfold has_key. apply bool_decide_eq_true. Qed.

Lemma has_key_false (k : string) (d : payload) :
  has_key k d = false ↔ d !! k = None.
Proof.
  unfold has_key. rewrite bool_decide_eq_false. symmetry. apply eq_None_not_Some.
Qed.

Lemma nonempty_false {A} (l : list A) : nonempty l = false ↔ l = [].
Proof. destruct l; simpl; split; congruence. Qed.

(** No field is missing exactly when each required key has a value. *)
Lemma missing_from_nil (d : payload) :
  missing_from d = [] ↔ ∀ f, In f required_fields → is_Some (d !! f).
Proof.
  unfold missing_from. split.
  - intros Hnil f Hf.
    destruct (has_key f d) eqn:Hk; [by apply has_key_true|].
    assert (In f (List.filter (λ field, negb (has_key field d)) required_fields))
      as Hin by (apply filter_In; rewrite Hk; auto).
    rewrite Hnil in Hin. destruct Hin.
  - intros Hall.
    destruct (List.filter _ required_fields) as [|f l] eqn:Hfil; [done|].
    assert (In f (f :: l)) as Hin by (left; reflexivity).
    rewrite <- Hfil in Hin. apply filter_In in Hin as [Hreq Hneg].
    apply Hall, has_key_true in Hreq. rewrite Hreq in Hneg. discriminate.
Qed.

(** A missing required key shows in the list of missing fields. *)
Lemma missing_from_cons (d : payload) (f : string) :
  In f required_fields → d !! f = None → nonempty (missing_from d) = true.
Proof.
  intros Hreq Hnone.
  destruct (nonempty (missing_from d)) eqn:Hne; [done|].
  apply nonempty_false in Hne.
  destruct (proj1 (missing_from_nil d) Hne f Hreq) as [v Hv]. congruence.
Qed.

(** The eight values of a payload with no field missing. *)
Lemma complete_lookups (d : payload) :
  missing_from d = [] →
  ∃ v1 v2 v3 v4 v5 v6 v7 v8,
    d !! "name" = Some v1 ∧ d !! "type" = Some v2 ∧
    d !! "release_date" = Some v3 ∧ d !! "core_clock" = Some v4 ∧
    d !! "clock_unit" = Some v5 ∧ d !! "price" = Some v6 ∧
    d !! "TDP" = Some v7 ∧ d !! "part_no" = Some v8.
Proof.
  intros Hc. pose proof (proj1 (missing_from_nil d) Hc) as Hall.
  destruct (Hall "name") as [v1 H1]; [simpl; tauto|].
  destruct (Hall "type") as [v2 H2]; [simpl; tauto|].
  destruct (Hall "release_date") as [v3 H3]; [simpl; tauto|].
  destruct (Hall "core_clock") as [v4 H4]; [simpl; tauto|].
  destruct (Hall "clock_unit") as [v5 H5]; [simpl; tauto|].
  destruct (Hall "price") as [v6 H6]; [simpl; tauto|].
  destruct (Hall "TDP") as [v7 H7]; [simpl; tauto|].
  destruct (Hall "part_no") as [v8 H8]; [simpl; tauto|].
  by exists v1, v2, v3, v4, v5, v6, v7, v8.
Qed.

(** ** The loop of the partial update *)

Lemma merged_empty (part : Part) : merged part ∅ = part.
Proof. destruct part. reflexivity. Qed.

Lemma modify_field_merged (part : Part) (m : payload) (k : string) (v : json) :
  m !! k = None →
  modify_field k v (merged part m) = merged part (<[k := v]> m).
Proof.
  intros Hk. unfold modify_field.
  repeat match goal with
         | |- context [String.eqb k ?s] =>
             destruct (String.eqb_spec k s) as [->|];
             [unfold merged;
              rewrite lookup_insert_eq, !lookup_insert_ne by done;
              simpl; rewrite ?Hk; reflexivity|]
         end.
  unfold merged. by rewrite !lookup_insert_ne by done.
Qed.

Lemma map_fold_modify_field (part : Part) (data : payload) :
  map_fold modify_field part data = merged part data.
Proof.
  apply (map_fold_weak_ind (λ r m, r = merged part m)).
  - symmetry. apply merged_empty.
  - intros k v m r Hk ->. by apply modify_field_merged.
Qed.

(** ** What a successful update writes *)

Lemma update_part_success (db : table) (id : Z) (data : payload) :
  status_code (update_part db id data).2 = 200 →
  ∃ part v1 v2 v3 v4 v5 v6 v7 v8,
    db !! id = Some part ∧
    data !! "name" = Some v1 ∧ data !! "type" = Some v2 ∧
    data !! "release_date" = Some v3 ∧ data !! "core_clock" = Some v4 ∧
    data !! "clock_unit" = Some v5 ∧ data !! "price" = Some v6 ∧
    data !! "TDP" = Some v7 ∧ data !! "part_no" = Some v8 ∧
    (update_part db id data).1
    = <[id := Build_Part v1 v2 v3 v4 (dict_get data "boost_clock")
                         v5 v6 v7 v8]> db.
Proof.
  unfold update_part.
  destruct (db !! id) as [part|] eqn:Hid; [|discriminate].
  destruct (has_key "id" data); [discriminate|].
  destruct (nonempty (missing_from data)) eqn:Hm; [discriminate|].
  apply nonempty_false, complete_lookups in Hm
    as (v1 & v2 & v3 & v4 & v5 & v6 & v7 & v8
        & H1 & H2 & H3 & H4 & H5 & H6 & H7 & H8).
  rewrite H1, H2, H3, H4, H5, H6, H7, H8.
  match goal with
  | |- context [match ?c with Some _ => _ | None => _ end] =>
      destruct c as [b|]; [destruct b|]; try discriminate
  end.
  intros _. exists part, v1, v2, v3, v4, v5, v6, v7, v8.
  repeat split; try done.
Qed.

Lemma modify_part_success (db : table) (id : Z) (data : payload) :
  status_code (modify_part db id data).2 = 200 →
  ∃ part, db !! id = Some part ∧
          (modify_part db id data).1 = <[id := merged part data]> db.
Proof.
  unfold modify_part.
  destruct (db !! id) as [part|] eqn:Hid; [|discriminate].
  destruct (has_key "id" data); [discriminate|].
  match goal with
  | |- context [match ?c with Some _ => _ | None => _ end] =>
      destruct c as [b|]; [destruct b|]; try discriminate
  end.
  intros _. exists part. split; [done|].
  simpl. by rewrite map_fold_modify_field.
Qed.

(** ** Unknown ids *)

(** C7: for an id with no row in the table, fetching, full update, partial
    update and delete each answer 404 with the body
    [{"status": 1, "message": "Part not found."}], and the writing handlers
    hand back the very table they were given. *)
Theorem unknown_id_not_found (db : table) (id : Z) (data : payload) :
  db !! id = None →
  part_not_found
  = Response (JObj [("status", JInt 1); ("message", JStr "Part not found.")])
             404 ∧
  get_part_by_id db id = part_not_found ∧
  update_part db id data = (db, part_not_found) ∧
  modify_part db id data = (db, part_not_found) ∧
  delete_part db id = (db, part_not_found).
Proof.
  intros Hid.
  unfold get_part_by_id, update_part, modify_part, delete_part.
  rewrite Hid. repeat split.
Qed.

(** ** Which error comes first *)

(** C10: a payload that has the key "id" and lacks a required field is
    answered by the create handler with the missing-fields error, and by the
    full update of an existing row with the client-supplied-id error; the
    table is the same after either. *)
Theorem id_and_missing_field_precedence
    (new_id : table → Z) (db : table) (id : Z) (part : Part)
    (d : payload) (f : string) :
  is_Some (d !! "id") →
  In f required_fields →
  d !! f = None →
  db !! id = Some part →
  add_part new_id db d
  = (db, Response
           (JObj [("status", JInt 1);
                  ("message",
                   JStr ("Missing required fields: "
                         +:+ String.concat ", " (missing_from d)))])
           400) ∧
  In f (missing_from d) ∧
  update_part db id d
  = (db, Response
           (JObj [("status", JInt 1);
                  ("message", JStr "Client cannot supply id.")])
           400).
Proof.
  intros Hhas Hreq Hmiss Hid. split; [|split].
  - unfold add_part. by rewrite (missing_from_cons d f Hreq Hmiss).
  - unfold missing_from. apply filter_In. split; [done|].
    by rewrite (proj2 (has_key_false f d) Hmiss).
  - unfold update_part. rewrite Hid.
    by rewrite (proj2 (has_key_true "id" d) Hhas).
Qed.

(** ** Partial update *)



(** ** Replace against merge *)

(** C8: when the payload has no "boost_clock", a full update that answers
    200 leaves the row with a null boost clock, and a partial update that
    answers 200 leaves the row with the boost clock it had. *)
Theorem boost_clock_replace_or_keep
    (db : table) (id : Z) (part : Part) (full partial : payload) :
  db !! id = Some part →
  boost_clock part ≠ JNull →
  full !! "boost_clock" = None →
  partial !! "boost_clock" = None →
  (status_code (update_part db id full).2 = 200 →
   ∃ part', (update_part db id full).1 !! id = Some part' ∧
            boost_clock part' = JNull) ∧
  (status_code (modify_part db id partial).2 = 200 →
   ∃ part', (modify_part db id partial).1 !! id = Some part' ∧
            boost_clock part' = boost_clock part).
Proof.
  intros Hid _ Hfull Hpartial. split; intros Hok.
  - apply update_part_success in Hok
      as (? & v1 & v2 & v3 & v4 & v5 & v6 & v7 & v8 & _ & _ & _ & _ & _ & _
          & _ & _ & _ & ->).
    eexists. rewrite lookup_insert_eq. split; [reflexivity|].
    simpl. unfold dict_get. by rewrite Hfull.
  - apply modify_part_success in Hok as (part0 & Hid0 & ->).
    assert (part0 = part) as -> by congruence.
    eexists. rewrite lookup_insert_eq. split; [reflexivity|].
    simpl. by rewrite Hpartial.
Qed.

Lemma boost_clock_replace_or_keep_witness :
  (∃ part', (update_part two_parts 1 (delete "boost_clock" ryzen)).1 !! 1
            = Some part' ∧ boost_clock part' = JNull) ∧
  (∃ part', (modify_part two_parts 1 {[ "price" := JInt 150 ]}).1 !! 1
            = Some part' ∧ boost_clock part' = JInt 4200).
Proof.
  pose proof (boost_clock_replace_or_keep two_parts 1
                (Build_Part (JStr "Ryzen 5 3600") (JStr "CPU") (JInt 2019)
                            (JInt 3600) (JInt 4200) (JStr "MHz")
                            (JNum (401 # 2)) (JInt 65)
                            (JStr "100-000000031"))
                (delete "boost_clock" ryzen) {[ "price" := JInt 150 ]})
    as H.
  destruct H as [Hfull Hpartial];
    [reflexivity | discriminate | reflexivity | reflexivity |].
  split; [apply Hfull | apply Hpartial]; reflexivity.
Defined.

Lemma unknown_id_not_found_witness :
  get_part_by_id two_parts 7 = part_not_found ∧
  update_part two_parts 7 ryzen = (two_parts, part_not_found) ∧
  modify_part two_parts 7 ryzen = (two_parts, part_not_found) ∧
  delete_part two_parts 7 = (two_parts, part_not_found).
Proof.
  apply (unknown_id_not_found two_parts 7 ryzen). reflexivity.
Defined.

Lemma id_and_missing_field_precedence_witness :
  (add_part sqlite_rowid two_parts
            (<["id" := JInt 9]> (delete "price" ryzen))).2
  = Response (JObj [("status", JInt 1);
                    ("message", JStr "Missing required fields: price")]) 400 ∧
  (update_part two_parts 1 (<["id" := JInt 9]> (delete "price" ryzen))).2
  = Response (JObj [("status", JInt 1);
                    ("message", JStr "Client cannot supply id.")]) 400.
Proof.
  destruct (id_and_missing_field_precedence sqlite_rowid two_parts 1
              (Build_Part (JStr "Ryzen 5 3600") (JStr "CPU") (JInt 2019)
                          (JInt 3600) (JInt 4200) (JStr "MHz")
                          (JNum (401 # 2)) (JInt 65) (JStr "100-000000031"))
              (<["id" := JInt 9]> (delete "price" ryzen)) "price")
    as (Hadd & _ & Hupd).
  - by exists (JInt 9).
  - simpl; tauto.
  - reflexivity.
  - reflexivity.
  - rewrite Hadd, Hupd. split; reflexivity.
Defined.

(** ** Keys of new rows *)



(** ** Create, then fetch *)



(** ** Strings *)

Lemma in_strs_In (x : string) (l : list string) : in_strs x l = true ↔ In x l.
Proof.
  unfold in_strs. rewrite existsb_exists. split.
  - intros (y & Hy & Heq). apply String.eqb_eq in Heq. by subst.
  - intros Hx. exists x. split; [done|]. apply String.eqb_refl.
Qed.

Lemma is_prefix_app (p rest : string) : is_prefix p (p +:+ rest) = true.
Proof.
  induction p as [|a p IH]; simpl; [done|].
  by rewrite Ascii.eqb_refl, IH.
Qed.

(** ** Methods outside the five *)

(** C9: a request whose method is none of GET, POST, PUT, PATCH, DELETE and
    whose path starts with /parts is answered 405 with the body
    [{"status": 1, "message": "405 Method Not Allowed Allow: ..."}]; the
    table is the one given, and the reply is the same whatever the view
    functions would do. *)
Theorem method_not_allowed
    (dispatch : request → table → table * outcome) (req : request)
    (db : table) (rest : string) :
  ¬ In (method req) ["GET"; "POST"; "PUT"; "PATCH"; "DELETE"] →
  path req = "/parts" +:+ rest →
  full_dispatch_request dispatch req db
  = (db, Response
           (JObj [("status", JInt 1);
                  ("message",
                   JStr "405 Method Not Allowed Allow: GET, POST, PUT, PATCH, DELETE")])
           405).
Proof.
  intros Hmethod Hpath. unfold full_dispatch_request, validate_request.
  rewrite Hpath, is_prefix_app.
  destruct (in_strs (method req) allowed_methods) eqn:Hin; [|done].
  apply in_strs_In in Hin. exfalso. apply Hmethod.
  unfold allowed_methods in Hin. simpl in *. tauto.
Qed.

Lemma method_not_allowed_witness :
  full_dispatch_request
    (dispatch_request sqlite_rowid exact_add exact_truediv exact_round)
    head_request two_parts
  = (two_parts,
     Response
       (JObj [("status", JInt 1);
              ("message",
               JStr "405 Method Not Allowed Allow: GET, POST, PUT, PATCH, DELETE")])
       405) ∧
  (full_dispatch_request
     (dispatch_request sqlite_rowid exact_add exact_truediv exact_round)
     patch_request two_parts).1 ≠ two_parts.
Proof.
  split.
  - apply (method_not_allowed _ head_request two_parts "/2");
      [|reflexivity].
    simpl. intuition discriminate.
  - intros H.
    apply (f_equal (λ m : table, price <$> m !! 2)) in H.
    vm_compute in H. discriminate H.
Defined.

(** ** The listing *)

Lemma query_all_elem (db : table) (id : Z) (part : Part) :
  (id, part) ∈ query_all db ↔ db !! id = Some part.
Proof.
  unfold query_all. rewrite merge_sort_Permutation.
  apply elem_of_map_to_list.
Qed.

Lemma query_all_NoDup (db : table) : NoDup (query_all db).
Proof.
  unfold query_all. rewrite merge_sort_Permutation.
  apply NoDup_map_to_list.
Qed.

Lemma filter_all {A} (l : list A) : List.filter (λ _, true) l = l.
Proof. induction l as [|x l IH]; simpl; congruence. Qed.

Lemma NoDup_list_filter {A} (f : A → bool) (l : list A) :
  NoDup l → NoDup (List.filter f l).
Proof.
  induction 1 as [|x l Hx Hl IH]; simpl; [constructor|].
  destruct (f x); [|done]. constructor; [|done].
  rewrite list_elem_of_In, filter_In, <- list_elem_of_In. tauto.
Qed.

(** The rows a listing works on are the rows of the table that pass the
    filter, each once. *)
Lemma selected_rows (db : table) (type_arg : option string) :
  let rows := List.filter (λ row, passes type_arg row.2) (query_all db) in
  NoDup rows ∧
  ∀ id part, (id, part) ∈ rows ↔
             db !! id = Some part ∧ passes type_arg part = true.
Proof.
  intros rows. split; [apply NoDup_list_filter, query_all_NoDup|].
  intros id part. unfold rows.
  rewrite list_elem_of_In, filter_In, <- list_elem_of_In, query_all_elem.
  reflexivity.
Qed.

Lemma prices_of_projection (rows : list (Z * Part)) :
  omap (λ part, getitem part "price") (thin <$> rows)
  = (λ row, price row.2) <$> rows.
Proof.
  induction rows as [|row rows IH]; [done|].
  rewrite !fmap_cons. change (omap ?f (?x :: ?l))
    with (match f x with Some y => y :: omap f l | None => omap f l end).
  rewrite IH. reflexivity.
Qed.

Section Listing.

Variable py_add : json → json → option json.
Variable py_truediv : json → Z → option json.
Variable py_round : json → Z → option json.

(** A listing that is not refused works on the rows that pass. *)
Lemma get_part_rows (db : table) (type_arg : option string) :
  get_part py_add py_truediv py_round db type_arg = part_type_invalid ∨
  get_part py_add py_truediv py_round db type_arg
  = get_part_reply py_add py_truediv py_round
      (List.filter (λ row, passes type_arg row.2) (query_all db)).
Proof.
  unfold get_part, passes. destruct type_arg as [t|].
  - destruct (String.eqb t ""); cbn [negb]; cbv iota.
    + right. by rewrite filter_all.
    + destruct (in_strs (upper t) ["GPU"; "CPU"]);
        [right; reflexivity | left; reflexivity].
  - right. by rewrite filter_all.
Qed.

Lemma get_part_reply_unfold (rows : list (Z * Part)) :
  get_part_reply py_add py_truediv py_round rows
  = match (if negb (Z.of_nat (length (thin <$> rows)) =? 0) then
             total_price ←
               py_sum py_add
                 (omap (λ part, getitem part "price") (thin <$> rows));
             quotient ←
               py_truediv total_price (Z.of_nat (length (thin <$> rows)));
             py_round quotient 2
           else Some (JInt 0)) with
    | Some average_price =>
        Response (JObj [("status", JInt 0);
                        ("total", JInt (Z.of_nat (length (thin <$> rows))));
                        ("average_price", average_price);
                        ("parts", JArr (JObj <$> (thin <$> rows)))])
                 200
    | None => Raised "TypeError"
    end.
Proof. reflexivity. Qed.

Lemma get_part_reply_ok (rows : list (Z * Part)) (body : json) (code : Z) :
  get_part_reply py_add py_truediv py_round rows = Response body code →
  code = 200 ∧
  ∃ average,
    body = JObj [("status", JInt 0);
                 ("total", JInt (Z.of_nat (length rows)));
                 ("average_price", average);
                 ("parts", JArr (JObj <$> (thin <$> rows)))] ∧
    (rows = [] → average = JInt 0) ∧
    (rows ≠ [] →
     ∃ total quotient,
       py_sum py_add ((λ row, price row.2) <$> rows) = Some total ∧
       py_truediv total (Z.of_nat (length rows)) = Some quotient ∧
       py_round quotient 2 = Some average).
Proof.
  rewrite get_part_reply_unfold, prices_of_projection, length_fmap.
  destruct rows as [|row rows].
  - simpl. intros [= <- <-]. split; [done|]. eexists. split; [done|].
    split; [done|]. by intros [].
  - replace (Z.of_nat (length (row :: rows)) =? 0) with false
      by (symmetry; apply Z.eqb_neq; simpl; lia).
    cbn [negb].
    destruct (py_sum py_add _) as [total|] eqn:Hsum; [|discriminate].
    cbn [mbind option_bind].
    destruct (py_truediv total _) as [quotient|] eqn:Hdiv; [|discriminate].
    cbn [mbind option_bind].
    destruct (py_round quotient 2) as [average|] eqn:Hround; [|discriminate].
    intros [= <- <-]. split; [done|]. exists average. split; [done|].
    split; [done|]. intros _. by exists total, quotient.
Qed.

End Listing.



(** ** The filter of the listing *)

(** C3 as the code has it: a filter value that is not empty and does not
    read GPU or CPU in upper case is refused with 400 and the invalid-type
    body, whatever the table holds; "GP" is such a value.  A value that
    reads GPU or CPU in upper case selects the rows whose type contains it,
    letter case apart. *)
Theorem list_filter_gate
    (py_add : json → json → option json)
    (py_truediv py_round : json → Z → option json)
    (db : table) (t : string) :
  t ≠ "" →
  (upper t ≠ "GPU" ∧ upper t ≠ "CPU" →
   get_part py_add py_truediv py_round db (Some t)
   = Response
       (JObj [("status", JInt 1);
              ("message",
               JStr "Invalid type. Valid choices are ‘CPU’ and ‘GPU’.")])
       400) ∧
  (upper t = "GPU" ∨ upper t = "CPU" →
   ∀ body code,
     get_part py_add py_truediv py_round db (Some t) = Response body code →
     code = 200 ∧
     ∃ rows average,
       NoDup rows ∧
       (∀ id part, (id, part) ∈ rows ↔
                   db !! id = Some part ∧
                   ilike_contains t (type part) = true) ∧
       body = JObj [("status", JInt 0);
                    ("total", JInt (Z.of_nat (length rows)));
                    ("average_price", average);
                    ("parts", JArr (JObj <$> (thin <$> rows)))]).
Proof.
  intros Hne. apply String.eqb_neq in Hne. unfold get_part. rewrite Hne.
  cbn [negb]. split.
  - intros [Hg Hc].
    destruct (in_strs (upper t) ["GPU"; "CPU"]) eqn:Hin; [|reflexivity].
    apply in_strs_In in Hin. simpl in Hin. intuition congruence.
  - intros Hup body code.
    replace (in_strs (upper t) ["GPU"; "CPU"]) with true
      by (symmetry; apply in_strs_In; simpl; intuition congruence).
    cbn [negb]. intros Hget.
    apply get_part_reply_ok in Hget as (-> & average & -> & _).
    split; [done|].
    destruct (selected_rows db (Some t)) as [Hnodup Helem].
    unfold passes in *. rewrite Hne in *.
    eexists _, average. split; [exact Hnodup|]. split; [exact Helem|].
    reflexivity.
Qed.

Lemma list_filter_gate_witness :
  exact_get_part two_parts (Some "GP")
  = Response
      (JObj [("status", JInt 1);
             ("message",
              JStr "Invalid type. Valid choices are ‘CPU’ and ‘GPU’.")])
      400.
Proof.
  apply (list_filter_gate exact_add exact_truediv exact_round two_parts "GP").
  - discriminate.
  - split; discriminate.
Defined.

(** C3 fails as stated: with a GPU part in the table, the listing with
    [type=GP] is refused with 400 instead of returning that part; and the
    empty filter value, whose upper case is neither GPU nor CPU, is not
    refused. *)
Lemma list_filter_GP_refused :
  (∃ part, two_parts !! 2 = Some part ∧ type part = JStr "GPU") ∧
  status_code (exact_get_part two_parts (Some "GP")) = 400 ∧
  exact_get_part two_parts (Some "GP") = part_type_invalid ∧
  in_strs (upper "") ["GPU"; "CPU"] = false ∧
  status_code (exact_get_part two_parts (Some "")) = 200.
Proof.
  split; [eexists; split; reflexivity|]. repeat split; reflexivity.
Qed.

(** ** Letter case *)

Ltac by_ascii_cases a :=
  destruct a as [[] [] [] [] [] [] [] []]; vm_compute;
  intros H; solve [reflexivity | discriminate H].

Lemma lower_c_upper (a : ascii) :
  lower_ascii a = "c"%char → upper_ascii a = "C"%char.
Proof. by_ascii_cases a. Qed.

Lemma lower_g_upper (a : ascii) :
  lower_ascii a = "g"%char → upper_ascii a = "G"%char.
Proof. by_ascii_cases a. Qed.

Lemma lower_p_upper (a : ascii) :
  lower_ascii a = "p"%char → upper_ascii a = "P"%char.
Proof. by_ascii_cases a. Qed.

Lemma lower_u_upper (a : ascii) :
  lower_ascii a = "u"%char → upper_ascii a = "U"%char.
Proof. by_ascii_cases a. Qed.

Lemma lower_cpu_upper (s : string) : lower s = "cpu" → upper s = "CPU".
Proof.
  destruct s as [|a [|b [|c [|d s]]]]; try discriminate.
  unfold lower, upper. simpl. intros [= Ha Hb Hc].
  by rewrite (lower_c_upper a Ha), (lower_p_upper b Hb), (lower_u_upper c Hc).
Qed.

Lemma lower_gpu_upper (s : string) : lower s = "gpu" → upper s = "GPU".
Proof.
  destruct s as [|a [|b [|c [|d s]]]]; try discriminate.
  unfold lower, upper. simpl. intros [= Ha Hb Hc].
  by rewrite (lower_g_upper a Ha), (lower_p_upper b Hb), (lower_u_upper c Hc).
Qed.

(** The test of the partial update is at least as strict as the one of the
    full update. *)
Lemma lower_valid_upper_valid (s : string) :
  in_strs (lower s) ["cpu"; "gpu"] = true →
  in_strs (upper s) ["CPU"; "GPU"] = true.
Proof.
  rewrite !in_strs_In. simpl. intros [H|[H|[]]]; symmetry in H.
  - left. symmetry. by apply lower_cpu_upper.
  - right. left. symmetry. by apply lower_gpu_upper.
Qed.

(** ** The type check of the full update *)




(** ** The type column over sequences of writes *)

Lemma add_part_table (new_id : table → Z) (db : table) (json : payload) :
  (add_part new_id db json).1 = db ∨
  ∃ p, type_is_cpu_or_gpu p ∧
       (add_part new_id db json).1 = <[new_id db := p]> db.
Proof.
  unfold add_part.
  destruct (nonempty (missing_from json)); [by left|].
  destruct (has_key "id" json); [by left|].
  repeat match goal with
         | |- context [match json !! ?k with Some _ => _ | None => _ end] =>
             destruct (json !! k) as [?|]; [|by left]
         end.
  destruct (json !! "boost_clock");
    match goal with
    | |- context [value_in_strs ?v _] =>
        destruct (value_in_strs v ["CPU"; "GPU"]) eqn:Hv; [|by left];
        destruct v; try discriminate Hv;
        apply in_strs_In in Hv; simpl in Hv;
        right; eexists; (split; [|reflexivity]);
        unfold type_is_cpu_or_gpu; simpl; intuition congruence
    end.
Qed.

Lemma update_part_table (db : table) (id : Z) (data : payload) :
  (update_part db id data).1 = db ∨
  ∃ p, (update_part db id data).1 = <[id := p]> db ∧
       (truthy (dict_get data "type") = true → type_reads_cpu_or_gpu p).
Proof.
  remember (update_part db id data) as r eqn:Hr.
  unfold update_part in Hr.
  destruct (db !! id) as [part|]; [|subst r; by left].
  destruct (has_key "id" data); [subst r; by left|].
  destruct (nonempty (missing_from data)); [subst r; by left|].
  destruct (truthy (dict_get data "type")) eqn:Htruthy.
  - destruct (data !! "type") as [t|] eqn:Ht; [|subst r; by left].
    cbn [mbind option_bind] in Hr.
    destruct t as [ | b | n | s | l | l ]; try (subst r; by left).
    cbn [str_upper mbind option_bind] in Hr.
    destruct (in_strs (upper s) ["CPU"; "GPU"]) eqn:Hs; [|subst r; by left].
    cbn [negb] in Hr.
    repeat match type of Hr with
           | context [match data !! ?k with Some _ => _ | None => _ end] =>
               destruct (data !! k) as [?|]; [|subst r; by left]
           end.
    subst r. right. eexists. split; [reflexivity|]. intros _. by exists s.
  - destruct (data !! "type") as [t|] eqn:Ht;
      repeat match type of Hr with
             | context [match data !! ?k with Some _ => _ | None => _ end] =>
                 destruct (data !! k) as [?|]; [|subst r; by left]
             end;
      subst r; [right|by left].
    eexists. split; [reflexivity|]. discriminate.
Qed.

Lemma modify_part_table (db : table) (id : Z) (data : payload) :
  (modify_part db id data).1 = db ∨
  ∃ part, db !! id = Some part ∧
          (modify_part db id data).1 = <[id := merged part data]> db ∧
          (type (merged part data) = type part ∨
           type_reads_cpu_or_gpu (merged part data)).
Proof.
  unfold modify_part.
  destruct (db !! id) as [part|]; [|by left].
  destruct (has_key "id" data); [by left|].
  rewrite map_fold_modify_field.
  destruct (has_key "type" data) eqn:Hk.
  - destruct (data !! "type") as [t|] eqn:Ht; [|by left].
    cbn [mbind option_bind]. destruct t as [ | b | n | s | l | l ]; try (by left).
    cbn [str_lower mbind option_bind].
    destruct (in_strs (lower s) ["cpu"; "gpu"]) eqn:Hs; [|by left].
    right. exists part. split; [done|]. split; [done|]. right.
    exists s. simpl. rewrite Ht. split; [done|].
    by apply lower_valid_upper_valid.
  - apply has_key_false in Hk.
    right. exists part. split; [done|]. split; [done|]. left.
    simpl. by rewrite Hk.
Qed.

Lemma delete_part_table (db : table) (id : Z) :
  (delete_part db id).1 = db ∨ (delete_part db id).1 = delete id db.
Proof. unfold delete_part. destruct (db !! id); auto. Qed.

Lemma literal_type_reads (p : Part) :
  type_is_cpu_or_gpu p → type_reads_cpu_or_gpu p.
Proof. intros [H|H]; eexists; (split; [exact H|reflexivity]). Qed.

Section Invariant.

Variable new_id : table → Z.

Lemma apply_operation_types (db : table) (o : operation) :
  types_read_cpu_or_gpu db → type_given o →
  types_read_cpu_or_gpu (apply_operation new_id db o).
Proof.
  intros Hdb Hgiven k q. destruct o as [json|id data|id data|id]; simpl.
  - destruct (add_part_table new_id db json) as [->|(p & Hp & ->)];
      [apply Hdb|].
    destruct (decide (new_id db = k)) as [->|Hne].
    + rewrite lookup_insert_eq. intros [= <-]. by apply literal_type_reads.
    + rewrite lookup_insert_ne by done. apply Hdb.
  - destruct (update_part_table db id data) as [->|(p & -> & Hp)];
      [apply Hdb|].
    destruct (decide (id = k)) as [->|Hne].
    + rewrite lookup_insert_eq. intros [= <-]. by apply Hp.
    + rewrite lookup_insert_ne by done. apply Hdb.
  - destruct (modify_part_table db id data)
      as [->|(part & Hid & -> & Hp)]; [apply Hdb|].
    destruct (decide (id = k)) as [->|Hne].
    + rewrite lookup_insert_eq. intros [= <-].
      destruct Hp as [Hsame|Hnew]; [|done].
      destruct (Hdb k part Hid) as (s & Hs & Hup).
      exists s. split; [congruence|done].
    + rewrite lookup_insert_ne by done. apply Hdb.
  - destruct (delete_part_table db id) as [->| ->]; [apply Hdb|].
    intros Hq. apply lookup_delete_Some in Hq as [_ Hq]. by eapply Hdb.
Qed.

End Invariant.

(** C1 as the code has it: start from a table (the empty one, say) in which
    every type is a string that reads CPU or GPU in upper case, and apply
    any sequence of create, full update, partial update and delete in
    which every full update carries a true value as its type; then every
    row of the resulting table has a type that is a string reading CPU or
    GPU in upper case. *)
Theorem type_reads_cpu_or_gpu_kept
    (new_id : table → Z) (db : table) (ops : list operation) :
  (∀ id p, db !! id = Some p → type_reads_cpu_or_gpu p) →
  Forall type_given ops →
  ∀ id p, run new_id db ops !! id = Some p → type_reads_cpu_or_gpu p.
Proof.
  intros Hdb Hops. revert db Hdb.
  induction Hops as [|o ops Ho _ IH]; intros db Hdb; [exact Hdb|].
  simpl. apply IH. by apply apply_operation_types.
Qed.

Lemma type_reads_cpu_or_gpu_kept_witness :
  type_reads_cpu_or_gpu
    (Build_Part (JStr "Radeon RX 580") (JStr "gpu") (JInt 2017) (JInt 1257)
                JNull (JStr "MHz") (JInt 100) (JInt 185) (JStr "RX580-8G")).
Proof.
  apply (type_reads_cpu_or_gpu_kept sqlite_rowid ∅
           [Create ryzen; Create radeon;
            FullUpdate 2 (<["type" := JStr "gpu"]> radeon);
            PartialUpdate 1 {[ "type" := JStr "Cpu" ]}; Delete 1]
           ltac:(intros id p H; rewrite lookup_empty in H; discriminate H)
           ltac:(repeat constructor) 2).
  reflexivity.
Defined.

(** C1 fails as stated: after a create and a partial update of the new row
    with the type "cpu", the row in the table has the type "cpu", which is
    neither "CPU" nor "GPU". *)
Lemma lower_case_type_stored :
  ∃ part,
    run sqlite_rowid ∅ [Create ryzen; PartialUpdate 1 {[ "type" := JStr "cpu" ]}]
      !! 1 = Some part ∧
    type part = JStr "cpu" ∧
    ¬ type_is_cpu_or_gpu part.
Proof.
  exists (Build_Part (JStr "Ryzen 5 3600") (JStr "cpu") (JInt 2019)
                     (JInt 3600) (JInt 4200) (JStr "MHz") (JNum (401 # 2))
                     (JInt 65) (JStr "100-000000031")).
  split; [vm_compute; reflexivity|]. split; [reflexivity|].
  unfold type_is_cpu_or_gpu. simpl. intros [H|H]; discriminate H.
Qed.

(** * Further properties of the handlers *)

(** ** What each writing handler does with a payload it accepts *)

Lemma add_part_valid (new_id : table → Z) (db : table) (json : payload) :
  valid_create json →
  add_part new_id db json
  = (<[new_id db := part_of_payload json]> db, created (new_id db)).
Proof.
  intros (Hcomplete & Hnoid & Htype).
  destruct (complete_lookups json Hcomplete)
    as (v1 & v2 & v3 & v4 & v5 & v6 & v7 & v8
        & H1 & H2 & H3 & H4 & H5 & H6 & H7 & H8).
  assert (value_in_strs v2 ["CPU"; "GPU"] = true) as Hv2.
  { destruct Htype as [Ht|Ht]; rewrite Ht in H2; by inversion H2. }
  unfold add_part, part_of_payload, dict_get, created.
  rewrite Hcomplete, (proj2 (has_key_false "id" json) Hnoid).
  rewrite H1, H2, H3, H4, H5, H6, H7, H8. cbn -[value_in_strs].
  rewrite Hv2. cbn. by destruct (json !! "boost_clock").
Qed.

Lemma update_part_valid (db : table) (id : Z) (part : Part) (data : payload) :
  db !! id = Some part →
  valid_update data →
  update_part db id data = (<[id := part_of_payload data]> db, updated).
Proof.
  intros Hid (Hcomplete & Hnoid & Htype).
  destruct (complete_lookups data Hcomplete)
    as (v1 & v2 & v3 & v4 & v5 & v6 & v7 & v8
        & H1 & H2 & H3 & H4 & H5 & H6 & H7 & H8).
  assert ((if truthy (dict_get data "type")
           then t ← data !! "type"; u ← str_upper t;
                Some (negb (in_strs u ["CPU"; "GPU"]))
           else Some false) = Some false) as Hcheck.
  { destruct Htype as [->|(s & Hs & Hup)]; [done|].
    rewrite Hs. cbn [mbind option_bind str_upper]. rewrite Hup.
    by destruct (truthy _). }
  unfold update_part.
  rewrite Hid, (proj2 (has_key_false "id" data) Hnoid), Hcomplete.
  cbn [nonempty]. rewrite Hcheck.
  unfold part_of_payload, dict_get, updated.
  by rewrite H1, H2, H3, H4, H5, H6, H7, H8.
Qed.

Lemma modify_part_valid (db : table) (id : Z) (part : Part) (data : payload) :
  db !! id = Some part →
  valid_patch data →
  modify_part db id data = (<[id := merged part data]> db, modified).
Proof.
  intros Hid (Hnoid & Htype). unfold modify_part.
  rewrite Hid, (proj2 (has_key_false "id" data) Hnoid).
  rewrite map_fold_modify_field.
  destruct Htype as [Hnone|(s & Hs & Hlow)].
  - by rewrite (proj2 (has_key_false "type" data) Hnone).
  - rewrite (proj2 (has_key_true "type" data)) by (rewrite Hs; eauto).
    rewrite Hs. cbn [mbind option_bind str_lower]. by rewrite Hlow.
Qed.

Lemma value_in_cpu_gpu (v : json) :
  value_in_strs v ["CPU"; "GPU"] = true ↔ v = JStr "CPU" ∨ v = JStr "GPU".
Proof.
  destruct v as [ | b | n | s | l | l ]; cbn [value_in_strs];
    try (split; [discriminate|intros [H|H]; discriminate H]).
  rewrite in_strs_In. simpl. split.
  - intros [<-|[<-|H]]; auto. destruct H.
  - intros [[= ->]|[= ->]]; auto.
Qed.

(** ** The branches of each writing handler *)

Lemma add_part_cases (new_id : table → Z) (db : table) (json : payload) :
  (missing_from json ≠ [] ∧
   add_part new_id db json
   = (db, Response
            (JObj [("status", JInt 1);
                   ("message",
                    JStr ("Missing required fields: "
                          +:+ String.concat ", " (missing_from json)))])
            400)) ∨
  (missing_from json = [] ∧ is_Some (json !! "id") ∧
   add_part new_id db json = (db, id_supplied_error)) ∨
  (missing_from json = [] ∧ json !! "id" = None ∧
   value_in_strs (dict_get json "type") ["CPU"; "GPU"] = false ∧
   add_part new_id db json = (db, part_type_invalid)) ∨
  (valid_create json ∧
   add_part new_id db json
   = (<[new_id db := part_of_payload json]> db, created (new_id db))).
Proof.
  destruct (nonempty (missing_from json)) eqn:Hm.
  { left. split; [intros H; by rewrite H in Hm|].
    unfold add_part. by rewrite Hm. }
  right. apply nonempty_false in Hm.
  destruct (has_key "id" json) eqn:Hk.
  { left. split; [done|]. split; [by apply has_key_true|].
    unfold add_part. by rewrite Hm, Hk. }
  right. apply has_key_false in Hk.
  destruct (value_in_strs (dict_get json "type") ["CPU"; "GPU"]) eqn:Hv.
  - right. assert (valid_create json) as Hvalid.
    { split; [done|]. split; [done|].
      destruct (complete_lookups json Hm) as (? & v2 & ? & ? & ? & ? & ? & ?
                                              & _ & H2 & _).
      replace (dict_get json "type") with v2 in Hv
        by (unfold dict_get; by rewrite H2).
      apply value_in_cpu_gpu in Hv as [Hv|Hv]; rewrite Hv in H2; auto. }
    split; [done|]. by apply add_part_valid.
  - left. split; [done|]. split; [done|]. split; [done|].
    destruct (complete_lookups json Hm)
      as (v1 & v2 & v3 & v4 & v5 & v6 & v7 & v8
          & H1 & H2 & H3 & H4 & H5 & H6 & H7 & H8).
    replace (dict_get json "type") with v2 in Hv
      by (unfold dict_get; by rewrite H2).
    unfold add_part.
    rewrite Hm, (proj2 (has_key_false "id" json) Hk).
    rewrite H1, H2, H3, H4, H5, H6, H7, H8. cbn -[value_in_strs].
    by rewrite Hv.
Qed.

Lemma update_part_cases (db : table) (id : Z) (data : payload) :
  (db !! id = None ∧ update_part db id data = (db, part_not_found)) ∨
  (is_Some (db !! id) ∧ is_Some (data !! "id") ∧
   update_part db id data = (db, id_supplied_error)) ∨
  (is_Some (db !! id) ∧ data !! "id" = None ∧ missing_from data ≠ [] ∧
   update_part db id data
   = (db, Response
            (JObj [("status", JInt 1);
                   ("message",
                    JStr ("Missing fields: "
                          +:+ String.concat ", " (missing_from data)))])
            400)) ∨
  (is_Some (db !! id) ∧ data !! "id" = None ∧ missing_from data = [] ∧
   truthy (dict_get data "type") = true ∧
   is_str (dict_get data "type") = false ∧
   update_part db id data = (db, Raised "AttributeError")) ∨
  (is_Some (db !! id) ∧ data !! "id" = None ∧ missing_from data = [] ∧
   (∃ s, data !! "type" = Some (JStr s) ∧ s ≠ "" ∧
         in_strs (upper s) ["CPU"; "GPU"] = false) ∧
   update_part db id data = (db, part_type_invalid)) ∨
  (is_Some (db !! id) ∧ valid_update data ∧
   update_part db id data = (<[id := part_of_payload data]> db, updated)).
Proof.
  destruct (db !! id) as [part|] eqn:Hid.
  2:{ left. split; [done|]. unfold update_part. by rewrite Hid. }
  right. assert (is_Some (Some part)) as Hsome by eauto.
  destruct (has_key "id" data) eqn:Hk.
  { left. split; [done|]. split; [by apply has_key_true|].
    unfold update_part. by rewrite Hid, Hk. }
  right. apply has_key_false in Hk.
  destruct (nonempty (missing_from data)) eqn:Hm.
  { left. split; [done|]. split; [done|].
    split; [intros H; by rewrite H in Hm|].
    unfold update_part.
    by rewrite Hid, (proj2 (has_key_false "id" data) Hk), Hm. }
  right. pose proof Hm as Hm'. apply nonempty_false in Hm.
  destruct (complete_lookups data Hm)
    as (v1 & v2 & v3 & v4 & v5 & v6 & v7 & v8
        & H1 & H2 & H3 & H4 & H5 & H6 & H7 & H8).
  assert (dict_get data "type" = v2) as Hget
    by (unfold dict_get; by rewrite H2).
  destruct (truthy v2) eqn:Htruthy.
  - destruct (is_str v2) eqn:Hstr.
    + destruct v2 as [ | b | n | s | l | l ]; try discriminate Hstr.
      destruct (in_strs (upper s) ["CPU"; "GPU"]) eqn:Hup.
      * right. right. split; [done|].
        assert (valid_update data) as Hvalid
          by (split; [done|]; split; [done|]; right; by exists s).
        split; [done|]. by eapply update_part_valid.
      * right. left. split; [done|]. split; [done|]. split; [done|].
        split.
        { exists s. split; [done|]. split; [|done].
          intros ->. discriminate Htruthy. }
        unfold update_part.
        rewrite Hid, (proj2 (has_key_false "id" data) Hk), Hm', Hget, Htruthy.
        rewrite H2. cbn [mbind option_bind str_upper]. by rewrite Hup.
    + left. rewrite Hget. split; [done|]. split; [done|]. split; [done|].
      split; [done|]. split; [done|].
      unfold update_part.
      rewrite Hid, (proj2 (has_key_false "id" data) Hk), Hm', Hget, Htruthy.
      rewrite H2. cbn [mbind option_bind].
      by destruct v2 as [ | b | n | s | l | l ]; try discriminate Hstr.
  - right. right. split; [done|].
    assert (valid_update data) as Hvalid.
    { split; [done|]. split; [done|]. left. by rewrite Hget. }
    split; [done|]. by eapply update_part_valid.
Qed.

Lemma modify_part_cases (db : table) (id : Z) (data : payload) :
  (db !! id = None ∧ modify_part db id data = (db, part_not_found)) ∨
  (is_Some (db !! id) ∧ is_Some (data !! "id") ∧
   modify_part db id data = (db, id_supplied_error)) ∨
  (is_Some (db !! id) ∧ data !! "id" = None ∧
   (∃ t, data !! "type" = Some t ∧ is_str t = false) ∧
   modify_part db id data = (db, Raised "AttributeError")) ∨
  (is_Some (db !! id) ∧ data !! "id" = None ∧
   (∃ s, data !! "type" = Some (JStr s) ∧
         in_strs (lower s) ["cpu"; "gpu"] = false) ∧
   modify_part db id data = (db, part_type_invalid)) ∨
  (∃ part, db !! id = Some part ∧ valid_patch data ∧
           modify_part db id data = (<[id := merged part data]> db, modified)).
Proof.
  destruct (db !! id) as [part|] eqn:Hid.
  2:{ left. split; [done|]. unfold modify_part. by rewrite Hid. }
  right. assert (is_Some (Some part)) as Hsome by eauto.
  destruct (has_key "id" data) eqn:Hk.
  { left. split; [done|]. split; [by apply has_key_true|].
    unfold modify_part. by rewrite Hid, Hk. }
  right. pose proof Hk as Hk'. apply has_key_false in Hk.
  destruct (data !! "type") as [t|] eqn:Ht.
  - assert (has_key "type" data = true) as Hkt
      by (apply has_key_true; rewrite Ht; eauto).
    destruct t as [ | b | n | s | l | l ];
      try (left; split; [done|]; split; [done|];
           split; [eexists; split; [done|reflexivity]|];
           unfold modify_part; by rewrite Hid, Hk', Hkt, Ht).
    destruct (in_strs (lower s) ["cpu"; "gpu"]) eqn:Hlow.
    + right. right. exists part. split; [done|].
      assert (valid_patch data) as Hvalid
        by (split; [done|]; right; by exists s).
      split; [done|]. by apply modify_part_valid.
    + right. left. split; [done|]. split; [done|].
      split; [by exists s|].
      unfold modify_part. rewrite Hid, Hk', Hkt, Ht.
      cbn [mbind option_bind str_lower]. by rewrite Hlow.
  - right. right. exists part. split; [done|].
    assert (valid_patch data) as Hvalid by (split; [done|]; by left).
    split; [done|]. by apply modify_part_valid.
Qed.

(** ** Which payloads are accepted *)





(** ** Writes that are refused *)

(** X4: a write that does not answer 200, whether it is refused with 400 or
    404 or raises, hands back the table it was given: no field of any row
    is changed and no row is added or removed. *)
Theorem refused_write_keeps_table
    (new_id : table → Z) (db : table) (id : Z) (d : payload) :
  (status_code (add_part new_id db d).2 ≠ 200 →
   (add_part new_id db d).1 = db) ∧
  (status_code (update_part db id d).2 ≠ 200 → (update_part db id d).1 = db) ∧
  (status_code (modify_part db id d).2 ≠ 200 → (modify_part db id d).1 = db) ∧
  (status_code (delete_part db id).2 ≠ 200 → (delete_part db id).1 = db).
Proof.
  repeat split.
  - destruct (add_part_cases new_id db d)
      as [(_ & ->)|[(_ & _ & ->)|[(_ & _ & _ & ->)|(_ & ->)]]];
      first [done | intros H; by destruct H].
  - destruct (update_part_cases db id d)
      as [(_ & ->)|[(_ & _ & ->)|[(_ & _ & _ & ->)
          |[(_ & _ & _ & _ & _ & ->)
           |[(_ & _ & _ & _ & ->)|(_ & _ & ->)]]]]];
      first [done | intros H; by destruct H].
  - destruct (modify_part_cases db id d)
      as [(_ & ->)|[(_ & _ & ->)|[(_ & _ & _ & ->)
          |[(_ & _ & _ & ->)|(part & _ & _ & ->)]]]];
      first [done | intros H; by destruct H].
  - unfold delete_part. destruct (db !! id);
      first [done | intros H; by destruct H].
Qed.

Lemma refused_write_keeps_table_witness :
  (add_part sqlite_rowid two_parts (<["type" := JStr "cpu"]> ryzen)).1
  = two_parts ∧
  (update_part two_parts 1 (<["type" := JInt 7]> ryzen)).1 = two_parts ∧
  (modify_part two_parts 1 {[ "type" := JNull ]}).1 = two_parts ∧
  (delete_part two_parts 9).1 = two_parts.
Proof.
  destruct (refused_write_keeps_table sqlite_rowid two_parts 1
              (<["type" := JStr "cpu"]> ryzen)) as (Hadd & _ & _ & _).
  destruct (refused_write_keeps_table sqlite_rowid two_parts 1
              (<["type" := JInt 7]> ryzen)) as (_ & Hupd & _ & _).
  destruct (refused_write_keeps_table sqlite_rowid two_parts 1
              {[ "type" := JNull ]}) as (_ & _ & Hmod & _).
  destruct (refused_write_keeps_table sqlite_rowid two_parts 9 ∅)
    as (_ & _ & _ & Hdel).
  split; [apply Hadd; vm_compute; discriminate|].
  split; [apply Hupd; vm_compute; discriminate|].
  split; [apply Hmod; vm_compute; discriminate|].
  apply Hdel; vm_compute; discriminate.
Defined.

(** ** Exceptions *)




(** ** Delete *)

(** X8: deleting an id that has a row answers 200; after it, fetching that
    id answers 404 and so does deleting it again, every other id is fetched
    as before, and the table has one row less. *)
Theorem delete_then_gone (db : table) (id : Z) (part : Part) :
  db !! id = Some part →
  (delete_part db id).2 = deleted ∧
  get_part_by_id (delete_part db id).1 id = part_not_found ∧
  delete_part (delete_part db id).1 id
  = ((delete_part db id).1, part_not_found) ∧
  (∀ k, k ≠ id →
        get_part_by_id (delete_part db id).1 k = get_part_by_id db k) ∧
  S (size (delete_part db id).1) = size db.
Proof.
  intros Hid.
  assert (delete_part db id = (delete id db, deleted)) as ->
    by (unfold delete_part; by rewrite Hid).
  cbn [fst snd]. split; [reflexivity|]. split; [|split; [|split]].
  - unfold get_part_by_id. by rewrite lookup_delete_eq.
  - unfold delete_part. by rewrite lookup_delete_eq.
  - intros k Hk. unfold get_part_by_id. by rewrite lookup_delete_ne.
  - rewrite <- (insert_delete_id db id part Hid) at 2.
    rewrite map_size_insert_None; [done|]. apply lookup_delete_eq.
Qed.

Lemma delete_then_gone_witness :
  (delete_part two_parts 1).2 = deleted ∧
  get_part_by_id (delete_part two_parts 1).1 1 = part_not_found ∧
  S (size (delete_part two_parts 1).1) = size two_parts.
Proof.
  destruct (delete_then_gone two_parts 1
              (Build_Part (JStr "Ryzen 5 3600") (JStr "CPU") (JInt 2019)
                          (JInt 3600) (JInt 4200) (JStr "MHz")
                          (JNum (401 # 2)) (JInt 65) (JStr "100-000000031")))
    as (H1 & H2 & _ & _ & H3); [vm_compute; reflexivity|].
  auto.
Defined.

(** ** Full update *)



(** X10: a full or a partial update, whatever it answers, leaves the set of
    ids of the table as it was and every row other than the one of its id
    untouched: an update never creates a row and never removes one. *)
Theorem updates_keep_ids (db : table) (id : Z) (data : payload) :
  dom (update_part db id data).1 = dom db ∧
  dom (modify_part db id data).1 = dom db ∧
  (∀ k, k ≠ id →
        (update_part db id data).1 !! k = db !! k ∧
        (modify_part db id data).1 !! k = db !! k).
Proof.
  assert (∀ p : Part, is_Some (db !! id) → dom (<[id := p]> db) = dom db)
    as Hdom.
  { intros p Hsome. rewrite dom_insert_L.
    apply elem_of_dom in Hsome. apply subseteq_union_1_L.
    by apply singleton_subseteq_l. }
  split; [|split].
  - destruct (update_part_cases db id data)
      as [(_ & ->)|[(_ & _ & ->)|[(_ & _ & _ & ->)
          |[(_ & _ & _ & _ & _ & ->)
           |[(_ & _ & _ & _ & ->)|(Hid & _ & ->)]]]]]; try done.
    by apply Hdom.
  - destruct (modify_part_cases db id data)
      as [(_ & ->)|[(_ & _ & ->)|[(_ & _ & _ & ->)
          |[(_ & _ & _ & ->)|(part & Hid & _ & ->)]]]]; try done.
    apply Hdom. rewrite Hid. eauto.
  - intros k Hk. split.
    + destruct (update_part_cases db id data)
        as [(_ & ->)|[(_ & _ & ->)|[(_ & _ & _ & ->)
            |[(_ & _ & _ & _ & _ & ->)
             |[(_ & _ & _ & _ & ->)|(Hid & _ & ->)]]]]]; try done.
      by apply lookup_insert_ne.
    + destruct (modify_part_cases db id data)
        as [(_ & ->)|[(_ & _ & ->)|[(_ & _ & _ & ->)
            |[(_ & _ & _ & ->)|(part & Hid & _ & ->)]]]]; try done.
      by apply lookup_insert_ne.
Qed.

(** ** Partial updates, one after another *)




(** X11: the partial update of an existing row with the empty payload
    answers 200 and hands back the very table it was given. *)
Theorem empty_patch_changes_nothing (db : table) (id : Z) (part : Part) :
  db !! id = Some part →
  modify_part db id ∅ = (db, modified).
Proof.
  intros Hid.
  rewrite (modify_part_valid db id part ∅ Hid);
    [|split; [apply lookup_empty|left; apply lookup_empty]].
  by rewrite merged_empty, insert_id.
Qed.

Lemma empty_patch_changes_nothing_witness :
  modify_part two_parts 2 ∅ = (two_parts, modified).
Proof.
  apply (empty_patch_changes_nothing two_parts 2
           (Build_Part (JStr "Radeon RX 580") (JStr "GPU") (JInt 2017)
                       (JInt 1257) JNull (JStr "MHz") (JInt 100) (JInt 185)
                       (JStr "RX580-8G"))).
  vm_compute. reflexivity.
Defined.



(** ** Create and the rows that are there *)





(** ** Keys the handlers do not know *)

Lemma missing_from_same (d d' : payload) :
  same_known_keys d d' → missing_from d' = missing_from d.
Proof.
  intros Hsame. unfold missing_from, has_key, required_fields. simpl.
  rewrite !Hsame by (simpl; tauto). reflexivity.
Qed.

(** X15: create and full update look at ten keys of the payload, "id" and
    the nine columns: two payloads that agree on these get the same reply
    and leave the same table, so any other key is ignored. *)
Theorem unknown_keys_ignored
    (new_id : table → Z) (db : table) (id : Z) (d d' : payload) :
  same_known_keys d d' →
  add_part new_id db d' = add_part new_id db d ∧
  update_part db id d' = update_part db id d.
Proof.
  intros Hsame.
  pose proof (missing_from_same d d' Hsame) as Hmiss.
  assert (has_key "id" d' = has_key "id" d) as Hid
    by (unfold has_key; rewrite Hsame by (simpl; tauto); reflexivity).
  split.
  - unfold add_part. rewrite Hmiss, Hid.
    by rewrite !Hsame by (simpl; tauto).
  - unfold update_part, dict_get. rewrite Hmiss, Hid.
    by rewrite !Hsame by (simpl; tauto).
Qed.

Lemma unknown_keys_ignored_witness :
  add_part sqlite_rowid two_parts (<["vendor" := JStr "AMD"]> radeon)
  = add_part sqlite_rowid two_parts radeon ∧
  update_part two_parts 1 (<["vendor" := JStr "AMD"]> radeon)
  = update_part two_parts 1 radeon.
Proof.
  apply (unknown_keys_ignored sqlite_rowid two_parts 1 radeon
           (<["vendor" := JStr "AMD"]> radeon)).
  intros k Hk. apply lookup_insert_ne.
  simpl in Hk. intuition (subst; discriminate).
Defined.

(** ** Missing fields *)

Lemma missing_from_In (d : payload) (f : string) :
  In f (missing_from d) ↔ In f required_fields ∧ d !! f = None.
Proof.
  unfold missing_from. rewrite filter_In, negb_true_iff, has_key_false.
  reflexivity.
Qed.

Lemma list_filter_sublist {A} (f : A → bool) (l : list A) :
  sublist (List.filter f l) l.
Proof.
  induction l as [|x l IH]; simpl; [constructor|].
  destruct (f x); by constructor.
Qed.

(** X16: when a required field is missing, create (whatever else the
    payload holds) and the full update of an existing row (when the payload
    has no "id") answer 400 and leave the table; the message is a fixed
    prefix, "Missing required fields: " for the one and "Missing fields: "
    for the other, followed by the missing names joined with ", ".  The
    names listed are the required keys the payload lacks, each once, in the
    order name, type, release_date, core_clock, clock_unit, price, TDP,
    part_no. *)
Theorem missing_fields_listed
    (new_id : table → Z) (db : table) (id : Z) (part : Part) (d : payload) :
  missing_from d ≠ [] →
  add_part new_id db d
  = (db, Response
           (JObj [("status", JInt 1);
                  ("message",
                   JStr ("Missing required fields: "
                         +:+ String.concat ", " (missing_from d)))])
           400) ∧
  (db !! id = Some part → d !! "id" = None →
   update_part db id d
   = (db, Response
            (JObj [("status", JInt 1);
                   ("message",
                    JStr ("Missing fields: "
                          +:+ String.concat ", " (missing_from d)))])
            400)) ∧
  (∀ f, In f (missing_from d) ↔ In f required_fields ∧ d !! f = None) ∧
  sublist (missing_from d)
          ["name"; "type"; "release_date"; "core_clock"; "clock_unit";
           "price"; "TDP"; "part_no"] ∧
  NoDup (missing_from d).
Proof.
  intros Hmiss.
  assert (nonempty (missing_from d) = true) as Hne
    by (destruct (missing_from d); [done|reflexivity]).
  split; [|split; [|split; [|split]]].
  - unfold add_part. by rewrite Hne.
  - intros Hid Hnoid. unfold update_part.
    by rewrite Hid, (proj2 (has_key_false "id" d) Hnoid), Hne.
  - apply missing_from_In.
  - apply list_filter_sublist.
  - apply NoDup_list_filter. unfold required_fields.
    repeat (constructor; [rewrite list_elem_of_In; simpl;
                          intuition discriminate|]).
    constructor.
Qed.

Lemma missing_fields_listed_witness :
  (add_part sqlite_rowid two_parts (delete "TDP" (delete "name" radeon))).2
  = Response
      (JObj [("status", JInt 1);
             ("message", JStr "Missing required fields: name, TDP")]) 400 ∧
  (update_part two_parts 1 (delete "TDP" (delete "name" radeon))).2
  = Response
      (JObj [("status", JInt 1);
             ("message", JStr "Missing fields: name, TDP")]) 400.
Proof.
  destruct (missing_fields_listed sqlite_rowid two_parts 1
              (Build_Part (JStr "Ryzen 5 3600") (JStr "CPU") (JInt 2019)
                          (JInt 3600) (JInt 4200) (JStr "MHz")
                          (JNum (401 # 2)) (JInt 65) (JStr "100-000000031"))
              (delete "TDP" (delete "name" radeon)))
    as (Hadd & Hupd & _); [vm_compute; discriminate|].
  rewrite Hadd, Hupd; [|vm_compute; reflexivity..].
  split; vm_compute; reflexivity.
Defined.

(** ** Letter case, further *)

Ltac by_all_ascii a :=
  destruct a as [[] [] [] [] [] [] [] []]; vm_compute; reflexivity.

Lemma lower_upper_ascii (a : ascii) :
  lower_ascii (upper_ascii a) = lower_ascii a.
Proof. by_all_ascii a. Qed.

Lemma upper_lower_ascii (a : ascii) :
  upper_ascii (lower_ascii a) = upper_ascii a.
Proof. by_all_ascii a. Qed.

Lemma upper_upper_ascii (a : ascii) :
  upper_ascii (upper_ascii a) = upper_ascii a.
Proof. by_all_ascii a. Qed.

Lemma lower_lower_ascii (a : ascii) :
  lower_ascii (lower_ascii a) = lower_ascii a.
Proof. by_all_ascii a. Qed.

Lemma string_map_map (f g h : ascii → ascii) (s : string) :
  (∀ a, f (g a) = h a) → string_map f (string_map g s) = string_map h s.
Proof. intros Hfg. induction s as [|a s IH]; simpl; [done|]. by rewrite Hfg, IH. Qed.

Lemma lower_upper (s : string) : lower (upper s) = lower s.
Proof. apply string_map_map, lower_upper_ascii. Qed.

Lemma upper_lower (s : string) : upper (lower s) = upper s.
Proof. apply string_map_map, upper_lower_ascii. Qed.

Lemma upper_upper (s : string) : upper (upper s) = upper s.
Proof. apply string_map_map, upper_upper_ascii. Qed.

Lemma lower_lower (s : string) : lower (lower s) = lower s.
Proof. apply string_map_map, lower_lower_ascii. Qed.

Lemma string_map_empty (f : ascii → ascii) (s : string) :
  String.eqb (string_map f s) "" = String.eqb s "".
Proof. by destruct s. Qed.

Lemma upper_cpu_lower (s : string) : upper s = "CPU" → lower s = "cpu".
Proof.
  intros H. rewrite <- lower_upper, H. reflexivity.
Qed.

Lemma upper_gpu_lower (s : string) : upper s = "GPU" → lower s = "gpu".
Proof.
  intros H. rewrite <- lower_upper, H. reflexivity.
Qed.

(** ** The listing, further *)

Section ListingMore.

Variable py_add : json → json → option json.
Variable py_truediv : json → Z → option json.
Variable py_round : json → Z → option json.

Lemma get_part_reply_nil :
  get_part_reply py_add py_truediv py_round [] = empty_listing.
Proof. reflexivity. Qed.

Lemma filter_none {A} (f : A → bool) (l : list A) :
  (∀ x, In x l → f x = false) → List.filter f l = [].
Proof.
  induction l as [|x l IH]; simpl; [done|]. intros H.
  rewrite (H x) by auto. apply IH. auto.
Qed.

(** A listing whose filter value passes the gate works on the rows that
    pass the filter. *)
Lemma get_part_gate (db : table) (type_arg : option string) :
  (∀ t, type_arg = Some t → t = "" ∨ upper t = "GPU" ∨ upper t = "CPU") →
  get_part py_add py_truediv py_round db type_arg
  = get_part_reply py_add py_truediv py_round
      (List.filter (λ row, passes type_arg row.2) (query_all db)).
Proof.
  intros Hgate. unfold get_part, passes. destruct type_arg as [t|].
  - destruct (String.eqb t "") eqn:Ht; cbn [negb]; cbv iota.
    + by rewrite filter_all.
    + replace (in_strs (upper t) ["GPU"; "CPU"]) with true; [done|].
      symmetry. apply in_strs_In. apply String.eqb_neq in Ht.
      destruct (Hgate t eq_refl) as [?|[<-|<-]]; simpl; tauto.
  - by rewrite filter_all.
Qed.

(** X17: a listing whose filter value, if it has one, is empty or reads GPU
    or CPU in upper case, and that no row of the table passes (an empty
    table, say), answers 200 with the total 0, the average price 0 (the
    integer, no division takes place) and an empty list of parts. *)
Theorem listing_of_nothing (db : table) (type_arg : option string) :
  (∀ t, type_arg = Some t → t = "" ∨ upper t = "GPU" ∨ upper t = "CPU") →
  (∀ id part, db !! id = Some part → passes type_arg part = false) →
  get_part py_add py_truediv py_round db type_arg
  = Response (JObj [("status", JInt 0); ("total", JInt 0);
                    ("average_price", JInt 0); ("parts", JArr [])]) 200.
Proof.
  intros Hgate Hnone.
  assert (List.filter (λ row, passes type_arg row.2) (query_all db) = [])
    as Hempty.
  { apply filter_none. intros [id part] Hin. simpl.
    apply (Hnone id). by apply query_all_elem, list_elem_of_In. }
  by rewrite (get_part_gate db type_arg Hgate), Hempty.
Qed.

(** X18: the letter case of the filter value does not matter: a value, the
    value in upper case and the value in lower case get the same reply. *)
Theorem filter_case_insensitive (db : table) (t : string) :
  get_part py_add py_truediv py_round db (Some (upper t))
  = get_part py_add py_truediv py_round db (Some t) ∧
  get_part py_add py_truediv py_round db (Some (lower t))
  = get_part py_add py_truediv py_round db (Some t).
Proof.
  assert (String.eqb (upper t) "" = String.eqb t "") as Hu
    by apply string_map_empty.
  assert (String.eqb (lower t) "" = String.eqb t "") as Hl
    by apply string_map_empty.
  unfold get_part, ilike_contains.
  by rewrite Hu, Hl, upper_upper, upper_lower, lower_upper, lower_lower.
Qed.

(** X19: a listing that answers 200 has as its total the number of rows it
    lists, at most the number of rows of the table; with no filter value,
    or an empty one, the total is the number of rows of the table. *)
Theorem listing_total_counts
    (db : table) (type_arg : option string) (body : json) :
  get_part py_add py_truediv py_round db type_arg = Response body 200 →
  ∃ n : nat,
    field "total" (Response body 200) = Some (JInt (Z.of_nat n)) ∧
    (∃ parts, field "parts" (Response body 200) = Some (JArr parts) ∧
              length parts = n) ∧
    (n ≤ size db)%nat ∧
    (type_arg = None ∨ type_arg = Some "" → n = size db).
Proof.
  intros Hget.
  destruct (get_part_rows py_add py_truediv py_round db type_arg)
    as [Hinv|Hrows]; [rewrite Hinv in Hget; discriminate Hget|].
  rewrite Hrows in Hget.
  apply get_part_reply_ok in Hget as (_ & average & -> & _).
  assert (length (query_all db) = size db) as Hsize.
  { unfold query_all. rewrite merge_sort_Permutation.
    apply length_map_to_list. }
  eexists. split; [reflexivity|]. split; [|split].
  - eexists. split; [reflexivity|]. by rewrite !length_fmap.
  - rewrite <- Hsize. apply filter_length_le.
  - intros Hno. rewrite <- Hsize. f_equal.
    destruct Hno as [-> | ->]; apply filter_all.
Qed.

End ListingMore.

Lemma listing_of_nothing_witness :
  exact_get_part ∅ (Some "gpu")
  = Response (JObj [("status", JInt 0); ("total", JInt 0);
                    ("average_price", JInt 0); ("parts", JArr [])]) 200.
Proof.
  apply (listing_of_nothing exact_add exact_truediv exact_round ∅
           (Some "gpu")).
  - intros t [= <-]. right. left. reflexivity.
  - intros id part H. rewrite lookup_empty in H. discriminate H.
Defined.

Lemma listing_total_counts_witness :
  ∃ n : nat,
    field "total" (exact_get_part two_parts (Some "cpu"))
    = Some (JInt (Z.of_nat n)) ∧ (n ≤ size two_parts)%nat.
Proof.
  destruct (listing_total_counts exact_add exact_truediv exact_round
              two_parts (Some "cpu")
              (JObj [("status", JInt 0); ("total", JInt 1);
                     ("average_price", JNum (401 # 2));
                     ("parts",
                      JArr [JObj [("id", JInt 1);
                                  ("name", JStr "Ryzen 5 3600");
                                  ("type", JStr "CPU");
                                  ("price", JNum (401 # 2))]])]))
    as (n & Htotal & _ & Hle & _); [vm_compute; reflexivity|].
  exists n. split; [|exact Hle].
  rewrite <- Htotal. vm_compute. reflexivity.
Defined.

Lemma contains_same_type (s t : string) :
  upper s = "CPU" ∨ upper s = "GPU" →
  upper t = "CPU" ∨ upper t = "GPU" →
  contains (lower t) (lower s) = true ↔ upper s = upper t.
Proof.
  intros [Hs|Hs] [Ht|Ht]; rewrite Hs, Ht;
    first [rewrite (upper_cpu_lower s Hs) | rewrite (upper_gpu_lower s Hs)];
    first [rewrite (upper_cpu_lower t Ht) | rewrite (upper_gpu_lower t Ht)];
    vm_compute; split; congruence.
Qed.

(** X20: in a table where every type reads CPU or GPU in upper case (what
    creates and accepted updates with a true type leave), the substring
    match of the listing is an exact one: a filter value that reads CPU or
    GPU in upper case lists the rows whose type reads the same in upper
    case, all of them and no other. *)
Theorem filter_lists_one_type
    (py_add : json → json → option json)
    (py_truediv py_round : json → Z → option json)
    (db : table) (t : string) (body : json) (code : Z) :
  types_read_cpu_or_gpu db →
  upper t = "CPU" ∨ upper t = "GPU" →
  get_part py_add py_truediv py_round db (Some t) = Response body code →
  ∃ rows,
    NoDup rows ∧
    (∀ id part, (id, part) ∈ rows ↔
                db !! id = Some part ∧
                ∃ s, type part = JStr s ∧ upper s = upper t) ∧
    field "parts" (Response body code)
    = Some (JArr (JObj <$> (thin <$> rows))).
Proof.
  intros Hinv Ht Hget.
  assert (String.eqb t "" = false) as Hne.
  { apply String.eqb_neq. intros ->. by destruct Ht. }
  rewrite (get_part_gate py_add py_truediv py_round db (Some t)) in Hget.
  2:{ intros t' [= <-]. tauto. }
  apply get_part_reply_ok in Hget as (-> & average & -> & _).
  destruct (selected_rows db (Some t)) as [Hnodup Helem].
  eexists. split; [exact Hnodup|]. split; [|reflexivity].
  intros id part. rewrite Helem. unfold passes. rewrite Hne.
  split; intros [Hid Hpass]; (split; [done|]).
  - destruct (Hinv id part Hid) as (s & Hs & Hup). exists s. split; [done|].
    rewrite Hs in Hpass. cbn [ilike_contains] in Hpass.
    apply in_strs_In in Hup. simpl in Hup.
    apply contains_same_type in Hpass; intuition.
  - destruct Hpass as (s & Hs & Hup). rewrite Hs. cbn [ilike_contains].
    apply contains_same_type; [|done|done].
    rewrite Hup. done.
Qed.

Lemma filter_lists_one_type_witness :
  ∃ rows,
    (∀ id part, (id, part) ∈ rows ↔
                two_parts !! id = Some part ∧
                ∃ s, type part = JStr s ∧ upper s = upper "gpu") ∧
    field "parts" (exact_get_part two_parts (Some "gpu"))
    = Some (JArr (JObj <$> (thin <$> rows))).
Proof.
  destruct (filter_lists_one_type exact_add exact_truediv exact_round
              two_parts "gpu"
              (JObj [("status", JInt 0); ("total", JInt 1);
                     ("average_price", JInt 100);
                     ("parts",
                      JArr [JObj [("id", JInt 2);
                                  ("name", JStr "Radeon RX 580");
                                  ("type", JStr "GPU");
                                  ("price", JInt 100)]])])
              200)
    as (rows & _ & Helem & Hparts).
  - intros id part Hid. unfold two_parts in Hid.
    apply (apply_operation_types sqlite_rowid _ (Create radeon)
             (apply_operation_types sqlite_rowid ∅ (Create ryzen)
                ltac:(intros k q H; rewrite lookup_empty in H; discriminate H)
                I)
             I id part Hid).
  - right. reflexivity.
  - vm_compute. reflexivity.
  - exists rows. split; [exact Helem|].
    rewrite <- Hparts. vm_compute. reflexivity.
Defined.

(** ** The hook, further *)

Lemma is_prefix_spec (p s : string) :
  is_prefix p s = true ↔ ∃ rest, s = p +:+ rest.
Proof.
  split; [|intros [rest ->]; apply is_prefix_app].
  revert s. induction p as [|a p IH]; intros s; simpl.
  - intros _. by exists s.
  - destruct s as [|b s]; [discriminate|].
    intros H. apply andb_true_iff in H as [Hab Hps].
    apply Ascii.eqb_eq in Hab as ->. destruct (IH s Hps) as [rest ->].
    by exists rest.
Qed.

(** X21: the hook lets a request through exactly when its method is one of
    PUT, POST, GET, PATCH, DELETE or its path does not start with /parts;
    the reply of such a request is the one of the view function, on the
    table the view function leaves. *)
Theorem hook_lets_through
    (dispatch : request → table → table * outcome) (req : request)
    (db : table) :
  (validate_request (method req) (path req) = None ↔
   In (method req) ["PUT"; "POST"; "GET"; "PATCH"; "DELETE"] ∨
   ¬ ∃ rest, path req = "/parts" +:+ rest) ∧
  (validate_request (method req) (path req) = None →
   full_dispatch_request dispatch req db = dispatch req db).
Proof.
  split.
  - unfold validate_request.
    destruct (in_strs (method req) allowed_methods) eqn:Hin; cbn [negb andb].
    + split; [|done]. intros _. left. by apply in_strs_In.
    + assert (¬ In (method req) ["PUT"; "POST"; "GET"; "PATCH"; "DELETE"])
        as Hnot.
      { intros H. apply in_strs_In in H. unfold allowed_methods in Hin.
        congruence. }
      destruct (is_prefix "/parts" (path req)) eqn:Hp.
      * split; [discriminate|]. intros [H|H]; [done|].
        exfalso. apply H. by apply is_prefix_spec.
      * split; [|done]. intros _. right. intros H.
        apply is_prefix_spec in H. congruence.
  - intros Hnone. unfold full_dispatch_request. by rewrite Hnone.
Qed.

(** ** Writes, one after another *)





(** ** Writes and the listing *)

Section WritesAndListing.

Variable new_id : table → Z.
Variable py_add : json → json → option json.
Variable py_truediv : json → Z → option json.
Variable py_round : json → Z → option json.


(** X25: after a delete that answers 200, no part of a listing that answers
    200 has the deleted id. *)
Theorem deleted_part_not_listed
    (db : table) (id : Z) (type_arg : option string) (body : json) :
  (delete_part db id).2 = deleted →
  get_part py_add py_truediv py_round (delete_part db id).1 type_arg
  = Response body 200 →
  ∃ parts,
    field "parts" (Response body 200) = Some (JArr parts) ∧
    ∀ l, JObj l ∈ parts → getitem l "id" ≠ Some (JInt id).
Proof.
  intros Hdel Hget.
  assert ((delete_part db id).1 = delete id db) as Htable.
  { unfold delete_part in *. by destruct (db !! id). }
  rewrite Htable in Hget.
  destruct (get_part_rows py_add py_truediv py_round (delete id db) type_arg)
    as [Hinv|Hrows]; [rewrite Hinv in Hget; discriminate Hget|].
  rewrite Hrows in Hget.
  apply get_part_reply_ok in Hget as (_ & average & -> & _).
  eexists. split; [reflexivity|].
  intros l Hl.
  apply list_elem_of_fmap in Hl as (l' & [= <-] & Hl).
  apply list_elem_of_fmap in Hl as ([k part] & -> & Hrow).
  apply selected_rows in Hrow as [Hk _].
  cbn. intros [= ->].
  rewrite lookup_delete_eq in Hk. discriminate.
Qed.

End WritesAndListing.


Lemma deleted_part_not_listed_witness :
  ∃ parts,
    field "parts" (exact_get_part (delete_part two_parts 1).1 None)
    = Some (JArr parts) ∧
    ∀ l, JObj l ∈ parts → getitem l "id" ≠ Some (JInt 1).
Proof.
  destruct (deleted_part_not_listed exact_add exact_truediv exact_round
              two_parts 1 None
              (JObj [("status", JInt 0); ("total", JInt 1);
                     ("average_price", JInt 100);
                     ("parts",
                      JArr [JObj [("id", JInt 2);
                                  ("name", JStr "Radeon RX 580");
                                  ("type", JStr "GPU");
                                  ("price", JInt 100)]])]))
    as (parts & Hparts & Hnot).
  - vm_compute. reflexivity.
  - vm_compute. reflexivity.
  - exists parts. split; [|exact Hnot].
    rewrite <- Hparts. vm_compute. reflexivity.
Defined.
